(** * gocommerce: the download endpoints of [api/download.go]

    A shallow embedding of [DownloadURL] and [DownloadList] over an explicit
    relational store, a call trace and an environment that decides what the
    external collaborators (store errors, the clock, the asset store) answer. *)

From Stdlib Require Import ZArith NArith List String Ascii Bool Lia Permutation.
Import ListNotations.
Open Scope string_scope.
Open Scope Z_scope.

(** ** Data model (package [models]) *)

Module Models.

Definition PaidState : string := "paid".

Record Order := mkOrder {
  order_ID : string;
  order_UserID : string;
  order_PaymentState : string
}.

Record Download := mkDownload {
  download_ID : string;
  download_OrderID : string;
  download_URL : string;
  download_DownloadCount : N
}.

Inductive EventType := EventCreated | EventUpdated | EventDeleted.

(** An event row.  [event_Changes] is the list of change tags handed to
    [models.LogEvent] (the [[]string{"download"}] of line 76). *)
Record Event := mkEvent {
  event_IP : string;
  event_UserID : string;
  event_OrderID : string;
  event_Type : EventType;
  event_Changes : list string;
  event_CreatedAt : Z
}.

(** Modelled from the spec: [models.Event] and [models.LogEvent] are not in
    src.  The [changes] column that the query of line 50 compares with
    ['download'] holds the tags joined by commas. *)
Definition changes_column (e : Event) : string :=
  String.concat "," (event_Changes e).

(** Whether a character occurs in a string (the separator in a column). *)
Fixpoint has_char (c : ascii) (s : string) : bool :=
  match s with
  | EmptyString => false
  | String a rest => Ascii.eqb a c || has_char c rest
  end.

Definition with_URL (d : Download) (u : string) : Download :=
  mkDownload (download_ID d) (download_OrderID d) u (download_DownloadCount d).

Definition incr_count (d : Download) : Download :=
  mkDownload (download_ID d) (download_OrderID d) (download_URL d)
             (download_DownloadCount d + 1)%N.

End Models.
Import Models.

(** ** The store, the trace of calls and the monad of a handler *)

Module Store.

Record DB := mkDB {
  downloads : list Download;
  orders : list Order;
  events : list Event
}.

(** The two scopes of the listing query (lines 115-120). *)
Inductive ListScope := ByOrder (id : string) | ByUser (subject : string).

(** What a handler asks of its collaborators, in the order it asks. *)
Inductive Call :=
| QueryDownload (id : string)
| QueryOrder (id : string)
| QueryEventCount (orderID : string) (since : Z)
| CallSignURL (url : string)
| TxBegin
| TxUpdateDownloadCount (id : string)
| TxCreateEvent (e : Event)
| TxCommit
| QueryDownloadList (scope : ListScope) (offset limit : Z).

Record World := mkWorld {
  db : DB;
  trace : list Call
}.

(** Answers of the collaborators that the code cannot decide itself. *)
Record Env := mkEnv {
  now : Z;                      (* time.Now() of line 50, in seconds *)
  stamp : Z;                    (* created_at the store gives a new event *)
  download_query_error : bool;  (* line 25, an error other than not-found *)
  order_query_error : bool;     (* lines 33 and 91 *)
  count_rows_error : bool;      (* line 52 *)
  count_scan_error : bool;      (* line 58 *)
  find_error : bool;            (* line 128 *)
  commit_error : bool;          (* line 77 *)
  page_bound : Z;               (* the bound pagination enforces *)
  assets : string -> option string  (* the asset store's signer *)
}.

Inductive QueryResult (A : Type) :=
| Found (a : A)
| RecordNotFound
| QueryError.
Arguments Found {A} a.
Arguments RecordNotFound {A}.
Arguments QueryError {A}.

(** Pending statements of an open transaction. *)
Inductive Stmt :=
| IncrementDownloadCount (id : string)
| CreateEvent (e : Event).

Record Tx := mkTx { pending : list Stmt }.

End Store.
Import Store.

Module Http.

Record HTTPError := mkHTTPError {
  Code : Z;
  Message : string
}.

Definition StatusOK : Z := 200.
Definition StatusBadRequest : Z := 400.
Definition StatusUnauthorized : Z := 401.
Definition StatusNotFound : Z := 404.
Definition StatusInternalServerError : Z := 500.

Definition notFoundError (msg : string) : HTTPError :=
  mkHTTPError StatusNotFound msg.
Definition unauthorizedError (msg : string) : HTTPError :=
  mkHTTPError StatusUnauthorized msg.
Definition badRequestError (msg : string) : HTTPError :=
  mkHTTPError StatusBadRequest msg.
Definition internalServerError (msg : string) : HTTPError :=
  mkHTTPError StatusInternalServerError msg.

(** How a handler ends: a JSON body sent with status 200, an error value
    returned to the router, or a nil dereference. *)
Inductive Outcome (A : Type) :=
| Sent (a : A)
| Failed (e : HTTPError)
| Panic.
Arguments Sent {A} a.
Arguments Failed {A} e.
Arguments Panic {A}.

Definition status {A} (o : Outcome A) : option Z :=
  match o with
  | Sent _ => Some StatusOK
  | Failed e => Some (Code e)
  | Panic => None
  end.

Definition M (A : Type) : Type := World -> Outcome A * World.

Definition ret {A} (a : A) : M A := fun w => (Sent a, w).
Definition fail {A} (e : HTTPError) : M A := fun w => (Failed e, w).
Definition panic {A} : M A := fun w => (Panic, w).

Definition bind {A B} (m : M A) (k : A -> M B) : M B :=
  fun w =>
    match m w with
    | (Sent a, w') => k a w'
    | (Failed e, w') => (Failed e, w')
    | (Panic, w') => (Panic, w')
    end.

Definition call (c : Call) : M unit :=
  fun w => (Sent tt, mkWorld (db w) (trace w ++ [c])).

Definition get_db : M DB := fun w => (Sent (db w), w).

Definition put_db (d : DB) : M unit :=
  fun w => (Sent tt, mkWorld d (trace w)).

End Http.
Import Http.

Notation "x <- m ;; k" := (bind m (fun x => k))
  (at level 61, m at next level, right associativity).
Notation "m ;;; k" := (bind m (fun _ => k))
  (at level 61, right associativity).

(** ** The handlers (package [api]) *)

Module Api.

Definition maxIPsPerDay : N := 50.

(** 24 * time.Hour, in seconds. *)
Definition day : Z := 24 * 3600.

Record Claims := mkClaims { Subject : string }.

(** What the handlers read from the request and its context. *)
Record Request := mkRequest {
  download_id : string;      (* chi.URLParam(r, "download_id") *)
  RemoteAddr : string;       (* r.RemoteAddr *)
  claims : option Claims;    (* gcontext.GetClaims(ctx), nil when anonymous *)
  is_admin : bool;           (* the administrative capability of the caller *)
  order_id : string;         (* gcontext.GetOrderID(ctx), empty when absent *)
  offset : Z;                (* pagination parameters of the caller *)
  limit : Z
}.

Definition is_owner (r : Request) (order : Order) : bool :=
  match claims r with
  | Some c => String.eqb (order_UserID order) (Subject c)
  | None => false
  end.

(** Modelled from the spec: [hasOrderAccess] is not in src.  "True if the
    caller is the order's owner or holds an administrative capability;
    false otherwise -- no side effects." *)
Definition hasOrderAccess (r : Request) (order : Order) : bool :=
  is_owner r order || is_admin r.

(** *** Store primitives *)

Definition find_download (id : string) (d : DB) : option Download :=
  find (fun x => String.eqb (download_ID x) id) (downloads d).

Definition find_order (id : string) (d : DB) : option Order :=
  find (fun x => String.eqb (order_ID x) id) (orders d).

(** [db.Where("id = ?", id).First(download)] *)
Definition first_download (env : Env) (id : string) : M (QueryResult Download) :=
  call (QueryDownload id) ;;;
  d <- get_db ;;
  if download_query_error env then ret QueryError
  else match find_download id d with
       | Some x => ret (Found x)
       | None => ret RecordNotFound
       end.

(** [db.Where("id = ?", id).First(order)] *)
Definition first_order (env : Env) (id : string) : M (QueryResult Order) :=
  call (QueryOrder id) ;;;
  d <- get_db ;;
  if order_query_error env then ret QueryError
  else match find_order id d with
       | Some x => ret (Found x)
       | None => ret RecordNotFound
       end.

(** The [Where] clause of line 50:
    [order_id = ? and created_at > ? and changes = 'download']. *)
Definition download_event_since (orderID : string) (since : Z) (e : Event) : bool :=
  String.eqb (event_OrderID e) orderID
  && (since <? event_CreatedAt e)
  && String.eqb (changes_column e) "download".

(** [Select("count(distinct(ip))")] over the rows the clause keeps. *)
Definition count_distinct_ip (orderID : string) (since : Z) (evs : list Event) : N :=
  N.of_nat (List.length (nodup string_dec
    (map event_IP (filter (download_event_since orderID since) evs)))).

(** The loop of lines 56-61: every row is scanned into [count]; a failing
    [Scan] ends the handler. *)
Fixpoint scan_rows (scan_error : bool) (rows : list N) (count : N) : option N :=
  match rows with
  | [] => Some count
  | row :: rest => if scan_error then None else scan_rows scan_error rest row
  end.

(** Lines 48-61.  An aggregate without grouping answers with one row. *)
Definition count_access_ips (env : Env) (orderID : string) : M N :=
  call (QueryEventCount orderID (now env - day)) ;;;
  d <- get_db ;;
  if count_rows_error env
  then fail (internalServerError "Error signing download")
  else match scan_rows (count_scan_error env)
               [count_distinct_ip orderID (now env - day) (events d)] 0%N with
       | Some count => ret count
       | None => fail (internalServerError "Error signing download")
       end.

(** Modelled from the spec: [Download.SignURL] is not in src.  The signer
    capability turns the asset reference into a signed URL, which the
    download then carries, or fails. *)
Definition SignURL (env : Env) (download : Download) : M (option Download) :=
  call (CallSignURL (download_URL download)) ;;;
  match assets env (download_URL download) with
  | Some signed => ret (Some (with_URL download signed))
  | None => ret None
  end.

(** *** The transaction of lines 70-77 *)

Definition Begin : M Tx := call TxBegin ;;; ret (mkTx []).

(** [tx.Model(download).Updates(... gorm.Expr("download_count + 1"))]: the
    expression is evaluated by the store on the row, the value in memory
    is not touched.  The result of the statement is dropped.  A failure of
    the statement on its own is not modelled: the unit of work fails as a
    whole, at the commit. *)
Definition Updates_download_count (tx : Tx) (download : Download) : M Tx :=
  call (TxUpdateDownloadCount (download_ID download)) ;;;
  ret (mkTx (pending tx ++ [IncrementDownloadCount (download_ID download)])).

(** Modelled from the spec: [models.LogEvent] is not in src.  It creates
    one event row with the given address, actor, order, kind and tags. *)
Definition LogEvent (env : Env) (tx : Tx) (ip userID orderID : string)
           (eventType : EventType) (changes : list string) : M Tx :=
  let e := mkEvent ip userID orderID eventType changes (stamp env) in
  call (TxCreateEvent e) ;;;
  ret (mkTx (pending tx ++ [CreateEvent e])).

(** The update addresses its row by the primary key of the download loaded
    at line 25; a download without a key is not modelled. *)
Definition apply_stmt (d : DB) (s : Stmt) : DB :=
  match s with
  | IncrementDownloadCount id =>
      mkDB (map (fun x => if String.eqb (download_ID x) id then incr_count x else x)
                (downloads d))
           (orders d) (events d)
  | CreateEvent e => mkDB (downloads d) (orders d) (events d ++ [e])
  end.

(** [tx.Commit()]: all pending statements take effect, or none does.  The
    error of the commit is dropped by the caller. *)
Definition Commit (env : Env) (tx : Tx) : M unit :=
  call TxCommit ;;;
  d <- get_db ;;
  if commit_error env then ret tt
  else put_db (fold_left apply_stmt (pending tx) d).

Definition subject_of (c : option Claims) : string :=
  match c with
  | Some c => Subject c
  | None => ""
  end.

(** *** [DownloadURL] (lines 16-80) *)

Definition DownloadURL (env : Env) (r : Request) : M Download :=
  res <- first_download env (download_id r) ;;
  match res with
  | RecordNotFound => fail (notFoundError "Download not found")
  | QueryError => fail (internalServerError "Error during database query")
  | Found download =>
  res <- first_order env (download_OrderID download) ;;
  match res with
  | RecordNotFound => fail (notFoundError "Download order not found")
  | QueryError => fail (internalServerError "Error during database query")
  | Found order =>
  if negb (hasOrderAccess r order)
  then fail (unauthorizedError "Not Authorized to access this download")
  else
  if negb (String.eqb (order_PaymentState order) PaidState)
  then fail (unauthorizedError "This download has not been paid yet")
  else
  count <- count_access_ips env (order_ID order) ;;
  if (maxIPsPerDay <? count)%N
  then fail (unauthorizedError
    "This download has been accessed from too many IPs within the last day")
  else
  signed <- SignURL env download ;;
  match signed with
  | None => fail (internalServerError "Error signing download")
  | Some download =>
  tx <- Begin ;;
  tx <- Updates_download_count tx download ;;
  let subject := subject_of (claims r) in
  tx <- LogEvent env tx (RemoteAddr r) subject (order_ID order)
                 EventUpdated ["download"] ;;
  Commit env tx ;;;
  ret download
  end end end.

(** *** [DownloadList] (lines 83-134) *)

(** Modelled from the spec: [paginate] is not in src.  "Offset/limit are
    caller-supplied and must be validated as non-negative and bounded;
    invalid values produce a BadRequest-class failure", "without touching
    the store".  What it does with the writer and the query it is handed
    once the parameters are accepted is not modelled. *)
Definition paginate (env : Env) (r : Request) : option (Z * Z) :=
  if (0 <=? offset r) && (0 <=? limit r) && (limit r <=? page_bound env)
  then Some (offset r, limit r)
  else None.

Definition in_scope (scope : ListScope) (o : Order) : bool :=
  match scope with
  | ByOrder id => String.eqb (order_ID o) id
  | ByUser subject => String.eqb (order_UserID o) subject
  end.

(** The join of line 114 with the [Where] of lines 116/119: one row per
    download and paid order of the scope it belongs to.  The query has no
    ORDER BY; the rows are given here in table order, and only which rows
    there are, and how often, is meant. *)
Definition joined_downloads (scope : ListScope) (d : DB) : list Download :=
  flat_map (fun x =>
    map (fun _ => x)
        (filter (fun o => String.eqb (download_OrderID x) (order_ID o)
                          && String.eqb (order_PaymentState o) "paid"
                          && in_scope scope o)
                (orders d)))
    (downloads d).

(** [query.Offset(offset).Limit(limit).Find(&downloads)] *)
Definition find_downloads (env : Env) (scope : ListScope) (off lim : Z)
  : M (option (list Download)) :=
  call (QueryDownloadList scope off lim) ;;;
  d <- get_db ;;
  if find_error env then ret None
  else ret (Some (firstn (Z.to_nat lim) (skipn (Z.to_nat off) (joined_downloads scope d)))).

Definition DownloadList (env : Env) (r : Request) : M (list Download) :=
  order <- (if String.eqb (order_id r) "" then ret None
            else
              res <- first_order env (order_id r) ;;
              match res with
              | RecordNotFound => fail (notFoundError "Download order not found")
              | QueryError => fail (internalServerError "Error during database query")
              | Found o => ret (Some o)
              end) ;;
  match order with
  | Some order =>
      if negb (hasOrderAccess r order)
      then fail (unauthorizedError "You don't have permission to access this order")
      else if negb (String.eqb (order_PaymentState order) PaidState)
      then fail (unauthorizedError "This order has not been completed yet")
      else ret tt
  | None => ret tt
  end ;;;
  scope <- match order with
           | Some order => ret (ByOrder (order_ID order))
           | None =>
               match claims r with
               | Some c => ret (ByUser (Subject c))
               | None => panic
               end
           end ;;
  match paginate env r with
  | None => fail (badRequestError "Bad Pagination Parameters")
  | Some (off, lim) =>
      res <- find_downloads env scope off lim ;;
      match res with
      | None => fail (internalServerError "Error during database query")
      | Some downloads => ret downloads
      end
  end.

End Api.
Import Api.

(** ** The rate limiter as the spec words it (4.2) *)

Module Spec.

(** "whose timestamp lies in the half-open interval (now - 24h, now]" *)
Definition in_window (now : Z) (e : Event) : bool :=
  (now - day <? event_CreatedAt e) && (event_CreatedAt e <=? now).

(** "whose change-tag set contains "download"" *)
Definition tagged_download (e : Event) : bool :=
  existsb (String.eqb "download") (event_Changes e).

(** "counts distinct source addresses among Ledger entries for orderID ..." *)
Definition CountDistinctAccessIPs (orderID : string) (now : Z) (evs : list Event) : N :=
  N.of_nat (List.length (nodup string_dec
    (map event_IP
         (filter (fun e => String.eqb (event_OrderID e) orderID
                           && tagged_download e && in_window now e) evs)))).

End Spec.

(** The entitlement and rate checks of lines 24-64, read off the store. *)
Definition checks_pass (env : Env) (r : Request) (d : DB) : Prop :=
  exists download order,
    download_query_error env = false /\
    find_download (download_id r) d = Some download /\
    order_query_error env = false /\
    find_order (download_OrderID download) d = Some order /\
    hasOrderAccess r order = true /\
    order_PaymentState order = PaidState /\
    count_rows_error env = false /\
    count_scan_error env = false /\
    (count_distinct_ip (order_ID order) (now env - day) (events d) <= maxIPsPerDay)%N.

(** The unit of work of lines 70-77 on its own. *)
Definition record_access (env : Env) (r : Request) (order : Order)
           (download : Download) : M Download :=
  tx <- Begin ;;
  tx <- Updates_download_count tx download ;;
  tx <- LogEvent env tx (RemoteAddr r) (subject_of (claims r)) (order_ID order)
                 EventUpdated ["download"] ;;
  Commit env tx ;;;
  ret download.

Definition access_event (env : Env) (r : Request) (order : Order) : Event :=
  mkEvent (RemoteAddr r) (subject_of (claims r)) (order_ID order)
          EventUpdated ["download"] (stamp env).

Definition recorded (env : Env) (r : Request) (order : Order)
           (download : Download) (d : DB) : DB :=
  mkDB (map (fun x => if String.eqb (download_ID x) (download_ID download)
                      then incr_count x else x) (downloads d))
       (orders d)
       (events d ++ [access_event env r order]).

(** Lines 122-133 of [DownloadList] on their own, for a scope already chosen. *)
Definition paginated (env : Env) (r : Request) (scope : ListScope) : M (list Download) :=
  match paginate env r with
  | None => fail (badRequestError "Bad Pagination Parameters")
  | Some (off, lim) =>
      res <- find_downloads env scope off lim ;;
      match res with
      | None => fail (internalServerError "Error during database query")
      | Some downloads => ret downloads
      end
  end.

(** ** Concrete stores and callers *)

Module Scenario.

Definition O1 : Order := mkOrder "O1" "alice" "paid".
Definition O2 : Order := mkOrder "O2" "bob" "pending".
Definition D1 : Download := mkDownload "D1" "O1" "assets/one.pdf" 0.
Definition D2 : Download := mkDownload "D2" "O2" "assets/two.pdf" 0.

Definition db0 : DB := mkDB [D1; D2] [O1; O2] [].
Definition w0 : World := mkWorld db0 [].

Definition signer (u : string) : option string := Some ("signed:" ++ u).

Definition env0 : Env :=
  mkEnv 1000000 1000000 false false false false false false 100 signer.

Definition env_commit_fails : Env :=
  mkEnv 1000000 1000000 false false false false false true 100 signer.

Definition alice : Request :=
  mkRequest "D1" "10.0.0.1" (Some (mkClaims "alice")) false "" 0 10.
Definition mallory : Request :=
  mkRequest "D1" "10.6.6.6" (Some (mkClaims "mallory")) false "" 0 10.
Definition anonymous_admin : Request :=
  mkRequest "D1" "10.0.0.7" None true "" 0 10.
Definition bob : Request :=
  mkRequest "D2" "10.0.0.2" (Some (mkClaims "bob")) false "" 0 10.

(** [n] download events of order O1, each from an address of its own, all
    ten seconds before [now env0]. *)
Definition accesses (n : nat) : list Event :=
  map (fun i => mkEvent (String (ascii_of_nat i) "") "alice" "O1"
                        EventUpdated ["download"] 999990)
      (seq 0 n).

Definition w_accessed (n : nat) : World :=
  mkWorld (mkDB [D1; D2] [O1; O2] (accesses n)) [].

(** A ledger entry carrying a second tag next to "download". *)
Definition two_tags : Event :=
  mkEvent "10.0.0.1" "alice" "O1" EventUpdated ["download"; "refresh"] 999990.

(** A ledger entry stamped one second after [now env0]. *)
Definition ahead : Event :=
  mkEvent "10.0.0.1" "alice" "O1" EventUpdated ["download"] 1000001.

(** A ledger entry stamped exactly 24 hours before [now env0]. *)
Definition day_old : Event :=
  mkEvent "10.0.0.1" "alice" "O1" EventUpdated ["download"] (1000000 - 86400).

Definition w_ledger (evs : list Event) : World :=
  mkWorld (mkDB [D1; D2] [O1; O2] evs) [].

(** Listing requests. *)
Definition list_O1_bad_offset : Request :=
  mkRequest "" "10.0.0.1" (Some (mkClaims "alice")) false "O1" (-1) 10.
Definition list_mine_bad_offset : Request :=
  mkRequest "" "10.0.0.1" (Some (mkClaims "alice")) false "" (-1) 10.
Definition list_anonymous : Request :=
  mkRequest "" "10.0.0.9" None false "" 0 10.

End Scenario.
Import Scenario.

(** ** [DownloadRefresh] (lines 137-175) *)

Module Refresh.

(** The two collaborators of the reconciliation whose code is elsewhere,
    taken as they answer: [order.UpdateDownloads(config, log)] gives the
    downloads of the order afterwards or an error; [a.db.Save(order)] gives
    the store afterwards and whether it reported an error. *)
Record Catalog := mkCatalog {
  UpdateDownloads : Order -> list Download -> option (list Download);
  Save : Order -> list Download -> DB -> DB * bool
}.

Inductive RefreshCall :=
| LoadOrder (id : string)
| CallUpdateDownloads (id : string)
| CallSave (id : string).

(** [Preload("Downloads")]: the download rows that point to the order. *)
Definition preloaded_downloads (order : Order) (d : DB) : list Download :=
  filter (fun x => String.eqb (download_OrderID x) (order_ID order)) (downloads d).

(** The handler, with the store passed along and the calls it made. *)
Definition DownloadRefresh (env : Env) (cat : Catalog) (r : Request) (d : DB)
  : Outcome unit * DB * list RefreshCall :=
  if String.eqb (order_id r) ""
  then (Failed (badRequestError "Order id missing"), d, [])
  else
    let loaded := [LoadOrder (order_id r)] in
    if order_query_error env
    then (Failed (internalServerError "Error during database query"), d, loaded)
    else
      match find_order (order_id r) d with
      | None => (Failed (notFoundError "Download order not found"), d, loaded)
      | Some order =>
          if negb (hasOrderAccess r order)
          then (Failed (unauthorizedError
                  "You don't have permission to access this order"), d, loaded)
          else if negb (String.eqb (order_PaymentState order) PaidState)
          then (Failed (unauthorizedError
                  "This order has not been completed yet"), d, loaded)
          else
            let updating := (loaded ++ [CallUpdateDownloads (order_ID order)])%list in
            match UpdateDownloads cat order (preloaded_downloads order d) with
            | None =>
                (Failed (internalServerError "Error during updating downloads"),
                 d, updating)
            | Some ds =>
                let saving := (updating ++ [CallSave (order_ID order)])%list in
                let (d', failed) := Save cat order ds d in
                if failed
                then (Failed (internalServerError "Error during saving order"),
                      d', saving)
                else (Sent tt, d', saving)
            end
      end.

End Refresh.
Import Refresh.

(** ** Sequences of requests *)

(** A request served by one of the two handlers that share the store. *)
Inductive Served :=
| GetDownload (env : Env) (r : Request)
| ListDownloads (env : Env) (r : Request).

Definition serve_one (s : Served) (w : World) : World :=
  match s with
  | GetDownload env r => snd (DownloadURL env r w)
  | ListDownloads env r => snd (DownloadList env r w)
  end.

(** The requests of the list served one after the other. *)
Definition serve (l : list Served) (w : World) : World :=
  fold_left (fun w s => serve_one s w) l w.

Definition is_get (s : Served) : bool :=
  match s with
  | GetDownload _ _ => true
  | ListDownloads _ _ => false
  end.

(** A stored download row before and after: the same row but for a count
    that has not gone down. *)
Definition kept_row (x y : Download) : Prop :=
  download_ID y = download_ID x /\
  download_OrderID y = download_OrderID x /\
  download_URL y = download_URL x /\
  (download_DownloadCount x <= download_DownloadCount y)%N.

(** The calls that belong to the transaction of lines 70-77. *)
Definition is_tx (c : Call) : bool :=
  match c with
  | TxBegin | TxUpdateDownloadCount _ | TxCreateEvent _ | TxCommit => true
  | _ => false
  end.

(** The addresses the count query counts. *)
Definition counted_ips (orderID : string) (since : Z) (evs : list Event) : list string :=
  nodup string_dec (map event_IP (filter (download_event_since orderID since) evs)).

Module Cases.

Definition env_sign_fails : Env :=
  mkEnv 1000000 1000000 false false false false false false 100 (fun _ => None).

Definition env_store_down : Env :=
  mkEnv 1000000 1000000 true false false false false false 100 signer.

Definition unknown_download : Request :=
  mkRequest "D9" "10.0.0.9" (Some (mkClaims "alice")) false "" 0 10.

(** D3 points to an order that is not in the store. *)
Definition D3 : Download := mkDownload "D3" "O7" "assets/three.pdf" 0.
Definition D4 : Download := mkDownload "D4" "O1" "assets/four.pdf" 2.
Definition O3 : Order := mkOrder "O3" "alice" "paid".
Definition D5 : Download := mkDownload "D5" "O3" "assets/five.pdf" 0.

Definition db1 : DB := mkDB [D1; D2; D3; D4; D5] [O1; O2; O3] [].
Definition w1 : World := mkWorld db1 [].

Definition dangling : Request :=
  mkRequest "D3" "10.0.0.1" (Some (mkClaims "alice")) false "" 0 10.

(** Alice from a second address. *)
Definition alice_elsewhere : Request :=
  mkRequest "D1" "10.9.9.9" (Some (mkClaims "alice")) false "" 0 10.

Definition list_O1 : Request :=
  mkRequest "" "10.0.0.1" (Some (mkClaims "alice")) false "O1" 0 10.
Definition list_O2 : Request :=
  mkRequest "" "10.0.0.2" (Some (mkClaims "bob")) false "O2" 0 10.
Definition list_mine : Request :=
  mkRequest "" "10.0.0.1" (Some (mkClaims "alice")) false "" 0 10.
Definition refresh_none : Request :=
  mkRequest "" "10.0.0.1" (Some (mkClaims "alice")) false "" 0 0.

(** A catalog that adds one download to the order and a store that takes
    the downloads it is given. *)
Definition catalog : Catalog :=
  mkCatalog
    (fun o ds => Some (ds ++ [mkDownload "D6" (order_ID o) "assets/six.pdf" 0])%list)
    (fun o ds d =>
       (mkDB (filter (fun x => negb (String.eqb (download_OrderID x) (order_ID o)))
                     (downloads d) ++ ds)%list
             (orders d) (events d), false)).

End Cases.
Import Cases.

(** ** Running the monad *)

Lemma bind_run {A B} (m : M A) (k : A -> M B) (w : World) :
  bind m k w =
  match m w with
  | (Sent a, w') => k a w'
  | (Failed e, w') => (Failed e, w')
  | (Panic, w') => (Panic, w')
  end.
Proof. reflexivity. Qed.

Lemma first_download_run env id w :
  first_download env id w =
  (Sent (if download_query_error env then QueryError
         else match find_download id (db w) with
              | Some x => Found x
              | None => RecordNotFound
              end),
   mkWorld (db w) (trace w ++ [QueryDownload id])).
Proof.
  unfold first_download, bind, call, get_db, ret; cbn [db trace].
  destruct (download_query_error env); [reflexivity|].
  destruct (find_download id (db w)); reflexivity.
Qed.

Lemma first_order_run env id w :
  first_order env id w =
  (Sent (if order_query_error env then QueryError
         else match find_order id (db w) with
              | Some x => Found x
              | None => RecordNotFound
              end),
   mkWorld (db w) (trace w ++ [QueryOrder id])).
Proof.
  unfold first_order, bind, call, get_db, ret; cbn [db trace].
  destruct (order_query_error env); [reflexivity|].
  destruct (find_order id (db w)); reflexivity.
Qed.

Lemma count_access_ips_run env orderID w :
  count_access_ips env orderID w =
  ((if count_rows_error env || count_scan_error env
    then Failed (internalServerError "Error signing download")
    else Sent (count_distinct_ip orderID (now env - day) (events (db w)))),
   mkWorld (db w) (trace w ++ [QueryEventCount orderID (now env - day)])).
Proof.
  unfold count_access_ips, bind, call, get_db, ret, fail; cbn [db trace scan_rows].
  destruct (count_rows_error env), (count_scan_error env); reflexivity.
Qed.

Lemma SignURL_run env download w :
  SignURL env download w =
  (Sent (option_map (with_URL download) (assets env (download_URL download))),
   mkWorld (db w) (trace w ++ [CallSignURL (download_URL download)])).
Proof.
  unfold SignURL, bind, call, ret; cbn [db trace].
  destruct (assets env (download_URL download)); reflexivity.
Qed.

Lemma record_access_run env r order download w :
  record_access env r order download w =
  (Sent download,
   mkWorld (if commit_error env then db w else recorded env r order download (db w))
           (trace w ++ [TxBegin; TxUpdateDownloadCount (download_ID download);
                        TxCreateEvent (access_event env r order); TxCommit])).
Proof.
  unfold record_access, Begin, Updates_download_count, LogEvent, Commit,
    bind, call, get_db, put_db, ret; cbn [db trace pending app fold_left apply_stmt].
  rewrite <- !app_assoc; cbn [app].
  destruct (commit_error env); reflexivity.
Qed.

Lemma DownloadURL_unfold env r :
  DownloadURL env r =
  (res <- first_download env (download_id r) ;;
   match res with
   | RecordNotFound => fail (notFoundError "Download not found")
   | QueryError => fail (internalServerError "Error during database query")
   | Found download =>
   res <- first_order env (download_OrderID download) ;;
   match res with
   | RecordNotFound => fail (notFoundError "Download order not found")
   | QueryError => fail (internalServerError "Error during database query")
   | Found order =>
   if negb (hasOrderAccess r order)
   then fail (unauthorizedError "Not Authorized to access this download")
   else
   if negb (String.eqb (order_PaymentState order) PaidState)
   then fail (unauthorizedError "This download has not been paid yet")
   else
   count <- count_access_ips env (order_ID order) ;;
   if (maxIPsPerDay <? count)%N
   then fail (unauthorizedError
     "This download has been accessed from too many IPs within the last day")
   else
   signed <- SignURL env download ;;
   match signed with
   | None => fail (internalServerError "Error signing download")
   | Some download => record_access env r order download
   end end end).
Proof. reflexivity. Qed.

Ltac exec :=
  repeat (rewrite ?bind_run, ?first_download_run, ?first_order_run,
            ?count_access_ips_run, ?SignURL_run, ?record_access_run;
          cbn [fst snd db trace negb option_map orb]).

Ltac exec_url := rewrite DownloadURL_unfold; exec.

(** ** Entitlement *)

Lemma owner_has_access r order c :
  claims r = Some c -> Subject c = order_UserID order ->
  hasOrderAccess r order = true.
Proof.
  intros Hc Hs. unfold hasOrderAccess, is_owner.
  rewrite Hc, Hs, String.eqb_refl. reflexivity.
Qed.

(** C2: when the download and its order load and the order's payment state
    is not "paid", [DownloadURL] ends with status 401 (Unauthorized),
    whoever calls: no hypothesis is made on the caller. *)
Theorem unpaid_order_is_unauthorized env r w download order :
  download_query_error env = false ->
  order_query_error env = false ->
  find_download (download_id r) (db w) = Some download ->
  find_order (download_OrderID download) (db w) = Some order ->
  order_PaymentState order <> PaidState ->
  status (fst (DownloadURL env r w)) = Some StatusUnauthorized.
Proof.
  intros Hqd Hqo Hd Ho Hpay.
  exec_url. rewrite Hqd, Hd. exec. rewrite Hqo, Ho.
  destruct (hasOrderAccess r order); cbn [negb]; [|reflexivity].
  apply String.eqb_neq in Hpay. rewrite Hpay. reflexivity.
Qed.

Lemma unpaid_order_is_unauthorized_witness :
  order_PaymentState O2 <> PaidState /\
  is_owner bob O2 = true /\
  status (fst (DownloadURL env0 bob w0)) = Some StatusUnauthorized.
Proof.
  split; [discriminate|]. split; [reflexivity|].
  apply (unpaid_order_is_unauthorized env0 bob w0 D2 O2);
    [reflexivity | reflexivity | reflexivity | reflexivity | discriminate].
Defined.

(** C3: when the download and its order load and the caller is neither the
    order's owner nor an administrator, [DownloadURL] ends with status 401
    (Unauthorized), whatever the payment state of the order. *)
Theorem stranger_is_unauthorized env r w download order :
  download_query_error env = false ->
  order_query_error env = false ->
  find_download (download_id r) (db w) = Some download ->
  find_order (download_OrderID download) (db w) = Some order ->
  is_owner r order = false ->
  is_admin r = false ->
  status (fst (DownloadURL env r w)) = Some StatusUnauthorized.
Proof.
  intros Hqd Hqo Hd Ho Hown Hadm.
  exec_url. rewrite Hqd, Hd. exec. rewrite Hqo, Ho.
  unfold hasOrderAccess. rewrite Hown, Hadm. reflexivity.
Qed.

Lemma stranger_is_unauthorized_witness :
  order_PaymentState O1 = PaidState /\
  is_owner mallory O1 = false /\
  is_admin mallory = false /\
  status (fst (DownloadURL env0 mallory w0)) = Some StatusUnauthorized.
Proof.
  repeat (split; [reflexivity|]).
  apply (stranger_is_unauthorized env0 mallory w0 D1 O1); reflexivity.
Defined.

(** ** Rate limit *)

(** C4: once the download and its order are loaded, the caller is entitled
    and the count query answers, [DownloadURL] ends with status 401 exactly
    when the count of distinct addresses is strictly above 50: at 50 the
    request goes on to the signer, at 51 it is refused. *)
Theorem rate_limit_threshold env r w download order :
  download_query_error env = false ->
  order_query_error env = false ->
  find_download (download_id r) (db w) = Some download ->
  find_order (download_OrderID download) (db w) = Some order ->
  hasOrderAccess r order = true ->
  order_PaymentState order = PaidState ->
  count_rows_error env = false ->
  count_scan_error env = false ->
  let count := count_distinct_ip (order_ID order) (now env - day) (events (db w)) in
  let result := DownloadURL env r w in
  (status (fst result) = Some StatusUnauthorized <-> (50 < count)%N) /\
  ((count <= 50)%N -> In (CallSignURL (download_URL download)) (trace (snd result))).
Proof.
  intros Hqd Hqo Hd Ho Hacc Hpay Hrows Hscan count result.
  subst result. exec_url. rewrite Hqd, Hd. exec. rewrite Hqo, Ho, Hacc, Hpay.
  cbn [negb]. rewrite String.eqb_refl. cbn [negb]. exec.
  rewrite Hrows, Hscan. cbn [orb]. fold count.
  unfold maxIPsPerDay.
  destruct (50 <? count)%N eqn:Hc.
  - apply N.ltb_lt in Hc. cbn [fst snd trace]. split.
    + split; [intros _; exact Hc | reflexivity].
    + intros Hle. lia.
  - apply N.ltb_ge in Hc. exec. split.
    + split; [|intros Hlt; lia].
      destruct (assets env (download_URL download)); cbn [option_map]; exec;
        intros Hst; vm_compute in Hst; discriminate Hst.
    + intros _.
      destruct (assets env (download_URL download)); cbn [option_map]; exec;
        unfold fail; cbn [snd trace]; rewrite <- !app_assoc; cbn [app];
        apply in_or_app; right; cbn [In]; auto 10.
Qed.

Lemma rate_limit_threshold_witness :
  (count_distinct_ip "O1" (now env0 - day) (accesses 50) = 50%N /\
   status (fst (DownloadURL env0 alice (w_accessed 50))) <> Some StatusUnauthorized /\
   In (CallSignURL "assets/one.pdf") (trace (snd (DownloadURL env0 alice (w_accessed 50))))) /\
  (count_distinct_ip "O1" (now env0 - day) (accesses 51) = 51%N /\
   status (fst (DownloadURL env0 alice (w_accessed 51))) = Some StatusUnauthorized).
Proof.
  assert (E50 : count_distinct_ip "O1" (now env0 - day) (accesses 50) = 50%N)
    by (vm_compute; reflexivity).
  assert (E51 : count_distinct_ip "O1" (now env0 - day) (accesses 51) = 51%N)
    by (vm_compute; reflexivity).
  destruct (rate_limit_threshold env0 alice (w_accessed 50) D1 O1
              eq_refl eq_refl eq_refl eq_refl eq_refl eq_refl eq_refl eq_refl)
    as [Hiff50 Hsign50].
  destruct (rate_limit_threshold env0 alice (w_accessed 51) D1 O1
              eq_refl eq_refl eq_refl eq_refl eq_refl eq_refl eq_refl eq_refl)
    as [Hiff51 _].
  cbn [db events w_accessed order_ID O1] in Hiff50, Hsign50, Hiff51.
  rewrite E50 in Hiff50, Hsign50. rewrite E51 in Hiff51.
  split; [split; [exact E50 | split] | split; [exact E51 |]].
  - intros Hst. apply Hiff50 in Hst. lia.
  - apply Hsign50. lia.
  - apply Hiff51. lia.
Defined.

(** ** Frame: failing runs leave the store alone *)

Ltac split_cases :=
  repeat (exec; unfold fail, ret; cbn [fst snd db trace status Code];
          match goal with
          | |- context [if ?b then _ else _] => destruct b eqn:?
          | |- context [match ?x with _ => _ end] => destruct x eqn:?
          end).

(** C7: a run of [DownloadURL] that ends with status 404 (NotFound) or 401
    (Unauthorized) leaves the store as it found it: no download row is
    incremented and no event is appended. *)
Theorem failure_leaves_store_unchanged env r w :
  status (fst (DownloadURL env r w)) = Some StatusNotFound \/
  status (fst (DownloadURL env r w)) = Some StatusUnauthorized ->
  db (snd (DownloadURL env r w)) = db w.
Proof.
  rewrite DownloadURL_unfold.
  split_cases; exec; unfold fail, ret; cbn [fst snd db trace status Code];
    try reflexivity;
    intros [Hst|Hst]; vm_compute in Hst; discriminate Hst.
Qed.

Lemma failure_leaves_store_unchanged_witness :
  status (fst (DownloadURL env0 bob w0)) = Some StatusUnauthorized /\
  db (snd (DownloadURL env0 bob w0)) = db w0.
Proof.
  split; [reflexivity|].
  apply (failure_leaves_store_unchanged env0 bob w0).
  right. reflexivity.
Defined.

(** ** The [changes] column and the count query *)

Lemma has_char_app c x s : has_char c (x ++ String c s) = true.
Proof.
  induction x as [|a x IH]; cbn [append has_char].
  - rewrite Ascii.eqb_refl. reflexivity.
  - rewrite IH. apply orb_true_r.
Qed.

Lemma changes_column_download e :
  changes_column e = "download" <-> event_Changes e = ["download"].
Proof.
  unfold changes_column. split.
  - destruct (event_Changes e) as [|x [|y rest]]; cbn [String.concat].
    + discriminate.
    + intros ->. reflexivity.
    + intros H.
      assert (Hc : has_char "," "download" = true).
      { rewrite <- H. change ("," ++ ?s) with (String "," s).
        apply has_char_app. }
      discriminate Hc.
  - intros ->. reflexivity.
Qed.

Lemma download_event_since_true orderID since e :
  download_event_since orderID since e = true <->
  event_OrderID e = orderID /\ since < event_CreatedAt e /\
  event_Changes e = ["download"].
Proof.
  unfold download_event_since.
  rewrite !andb_true_iff, String.eqb_eq, Z.ltb_lt, String.eqb_eq,
    changes_column_download.
  tauto.
Qed.

Lemma count_distinct_ip_no_history orderID since evs :
  (forall e, In e evs -> event_OrderID e = orderID ->
             ~ In "download" (event_Changes e)) ->
  count_distinct_ip orderID since evs = 0%N.
Proof.
  intros Hnone. unfold count_distinct_ip.
  replace (filter (download_event_since orderID since) evs) with (@nil Event);
    [reflexivity|].
  symmetry. induction evs as [|e evs IH]; [reflexivity|].
  cbn [filter].
  destruct (download_event_since orderID since e) eqn:He.
  - apply download_event_since_true in He. destruct He as (Ho & _ & Hc).
    exfalso. apply (Hnone e (or_introl eq_refl) Ho). rewrite Hc. left. reflexivity.
  - apply IH. intros e' Hin. apply Hnone. right. exact Hin.
Qed.

Lemma find_download_recorded env r order download id d :
  find_download id d = Some download ->
  find_download id (recorded env r order download d) = Some (incr_count download).
Proof.
  unfold find_download, recorded. cbn [downloads]. intros Hfind.
  assert (Hid : download_ID download = id).
  { apply find_some in Hfind. apply String.eqb_eq. apply Hfind. }
  rewrite Hid. revert Hfind.
  induction (downloads d) as [|x l IH]; cbn [find map]; [discriminate|].
  destruct (String.eqb (download_ID x) id) eqn:Hx.
  - intros [= ->]. cbn [incr_count download_ID]. rewrite Hx. reflexivity.
  - rewrite Hx. exact IH.
Qed.

(** ** The successful run *)

(** C8: from a store where the download and its paid order load and the
    order has no download event yet, a call by an entitled caller (the
    order's owner is one, [owner_has_access]) for which the signer and the
    commit succeed sends the download carrying the signed URL; the stored
    row of the download has its count raised by one (to 1 from 0), and the
    ledger is the old ledger followed by exactly one event of that order,
    kind updated, tagged "download", from the caller's address, whose actor
    is the caller's subject, empty for an anonymous caller. *)
Theorem first_access_is_recorded env r w download order signed :
  download_query_error env = false ->
  order_query_error env = false ->
  count_rows_error env = false ->
  count_scan_error env = false ->
  commit_error env = false ->
  find_download (download_id r) (db w) = Some download ->
  find_order (download_OrderID download) (db w) = Some order ->
  order_PaymentState order = PaidState ->
  hasOrderAccess r order = true ->
  (forall e, In e (events (db w)) -> event_OrderID e = order_ID order ->
             ~ In "download" (event_Changes e)) ->
  assets env (download_URL download) = Some signed ->
  let result := DownloadURL env r w in
  fst result = Sent (with_URL download signed) /\
  find_download (download_id r) (db (snd result)) = Some (incr_count download) /\
  (download_DownloadCount download = 0%N ->
   option_map download_DownloadCount
     (find_download (download_id r) (db (snd result))) = Some 1%N) /\
  orders (db (snd result)) = orders (db w) /\
  events (db (snd result)) =
    (events (db w) ++
     [mkEvent (RemoteAddr r) (subject_of (claims r)) (order_ID order)
              EventUpdated ["download"] (stamp env)])%list /\
  (claims r = None ->
   events (db (snd result)) =
     (events (db w) ++
      [mkEvent (RemoteAddr r) "" (order_ID order)
               EventUpdated ["download"] (stamp env)])%list).
Proof.
  intros Hqd Hqo Hrows Hscan Hcommit Hd Ho Hpay Hacc Hnone Hsign result.
  subst result. exec_url. rewrite Hqd, Hd. exec. rewrite Hqo, Ho, Hacc, Hpay.
  cbn [negb]. rewrite String.eqb_refl. cbn [negb]. exec.
  rewrite Hrows, Hscan. cbn [orb].
  rewrite (count_distinct_ip_no_history _ _ _ Hnone).
  change (maxIPsPerDay <? 0)%N with false. exec.
  rewrite Hsign. cbn [option_map]. exec. rewrite Hcommit.
  assert (Hrow : find_download (download_id r)
                   (recorded env r order (with_URL download signed) (db w))
                 = Some (incr_count download)).
  { unfold recorded, with_URL. cbn [download_ID].
    exact (find_download_recorded env r order download _ _ Hd). }
  cbn [fst snd db].
  split; [reflexivity|]. split; [exact Hrow|]. split; [|split; [reflexivity|split]].
  - intros Hzero. rewrite Hrow.
    cbn [option_map incr_count download_DownloadCount].
    rewrite Hzero. reflexivity.
  - reflexivity.
  - intros Hanon. cbn [recorded events]. unfold access_event.
    rewrite Hanon. reflexivity.
Qed.

Lemma first_access_is_recorded_witness :
  (is_owner alice O1 = true /\
   fst (DownloadURL env0 alice w0)
     = Sent (mkDownload "D1" "O1" "signed:assets/one.pdf" 0) /\
   find_download "D1" (db (snd (DownloadURL env0 alice w0)))
     = Some (mkDownload "D1" "O1" "assets/one.pdf" 1) /\
   events (db (snd (DownloadURL env0 alice w0)))
     = [mkEvent "10.0.0.1" "alice" "O1" EventUpdated ["download"] 1000000]) /\
  (claims anonymous_admin = None /\
   events (db (snd (DownloadURL env0 anonymous_admin w0)))
     = [mkEvent "10.0.0.7" "" "O1" EventUpdated ["download"] 1000000]).
Proof.
  destruct (first_access_is_recorded env0 alice w0 D1 O1 "signed:assets/one.pdf"
              eq_refl eq_refl eq_refl eq_refl eq_refl eq_refl eq_refl eq_refl
              (owner_has_access alice O1 (mkClaims "alice") eq_refl eq_refl)
              (fun e (Hin : In e []) _ _ => match Hin with end)
              eq_refl)
    as (Hout & Hrow & _ & _ & Hev & _).
  destruct (first_access_is_recorded env0 anonymous_admin w0 D1 O1
              "signed:assets/one.pdf"
              eq_refl eq_refl eq_refl eq_refl eq_refl eq_refl eq_refl eq_refl
              eq_refl
              (fun e (Hin : In e []) _ _ => match Hin with end)
              eq_refl)
    as (_ & _ & _ & _ & _ & Hanon).
  split.
  - split; [reflexivity|]. split; [exact Hout|]. split; [exact Hrow | exact Hev].
  - split; [reflexivity|]. exact (Hanon eq_refl).
Defined.

(** ** The signer comes last *)

Lemma checks_pass_trace env r w :
  checks_pass env r (db w) ->
  exists download order rest,
    find_download (download_id r) (db w) = Some download /\
    find_order (download_OrderID download) (db w) = Some order /\
    trace (snd (DownloadURL env r w)) =
    (trace w ++
     [QueryDownload (download_id r);
      QueryOrder (download_OrderID download);
      QueryEventCount (order_ID order) (now env - day);
      CallSignURL (download_URL download)] ++ rest)%list /\
    ~ In (CallSignURL (download_URL download)) rest.
Proof.
  intros (download & order & Hqd & Hd & Hqo & Ho & Hacc & Hpay & Hrows & Hscan & Hc).
  exists download, order.
  exec_url. rewrite Hqd, Hd. exec. rewrite Hqo, Ho, Hacc, Hpay.
  cbn [negb]. rewrite String.eqb_refl. cbn [negb]. exec.
  rewrite Hrows, Hscan. cbn [orb].
  apply N.ltb_ge in Hc. rewrite Hc. exec.
  destruct (assets env (download_URL download)) as [signed|]; cbn [option_map]; exec.
  - eexists. split; [reflexivity|]. split; [reflexivity|]. split.
    + cbn [snd trace]. rewrite <- !app_assoc. cbn [app]. reflexivity.
    + cbn [In]. intuition discriminate.
  - exists []. split; [reflexivity|]. split; [reflexivity|]. split.
    + unfold fail. cbn [snd trace]. rewrite <- !app_assoc. cbn [app]. reflexivity.
    + intros [].
Qed.

Lemma signer_called_checks_pass env r w u :
  trace w = [] ->
  In (CallSignURL u) (trace (snd (DownloadURL env r w))) ->
  checks_pass env r (db w).
Proof.
  intros Hw. rewrite DownloadURL_unfold.
  split_cases; exec; unfold fail, ret; cbn [fst snd db trace];
    rewrite ?Hw; cbn [app In]; intros Hin;
    try (exfalso; intuition discriminate);
    repeat match goal with
           | H : negb _ = false |- _ => apply negb_false_iff in H
           | H : orb _ _ = false |- _ => apply orb_false_iff in H; destruct H
           | H : (_ <? _)%N = false |- _ => apply N.ltb_ge in H
           | H : String.eqb _ _ = true |- _ => apply String.eqb_eq in H
           | H : match ?x with Some _ => _ | None => _ end = Found _ |- _ =>
               destruct x eqn:?; [injection H as <- | discriminate H]
           end;
    unfold checks_pass; do 2 eexists; repeat (split; [eassumption|]); eassumption.
Qed.

(** C6: in a run of [DownloadURL] on a fresh trace the signer is called
    exactly when the download and its order were loaded, the caller has
    access, the order is paid and the count is at most 50; and when it is
    called, the call is the fourth of the run, after the two lookups and the
    count query, and is never repeated. *)
Theorem signer_called_only_after_checks env r w :
  trace w = [] ->
  ((exists u, In (CallSignURL u) (trace (snd (DownloadURL env r w))))
   <-> checks_pass env r (db w)) /\
  (forall u, In (CallSignURL u) (trace (snd (DownloadURL env r w))) ->
     exists download order rest,
       find_download (download_id r) (db w) = Some download /\
       find_order (download_OrderID download) (db w) = Some order /\
       hasOrderAccess r order = true /\
       order_PaymentState order = PaidState /\
       trace (snd (DownloadURL env r w)) =
       ([QueryDownload (download_id r);
         QueryOrder (download_OrderID download);
         QueryEventCount (order_ID order) (now env - day);
         CallSignURL (download_URL download)] ++ rest)%list /\
       ~ In (CallSignURL (download_URL download)) rest).
Proof.
  intros Hw. split.
  - split.
    + intros [u Hin]. exact (signer_called_checks_pass env r w u Hw Hin).
    + intros Hpass. destruct (checks_pass_trace env r w Hpass)
        as (download & order & rest & _ & _ & Ht & _).
      exists (download_URL download). rewrite Ht, Hw. cbn [app In]. auto 10.
  - intros u Hin.
    pose proof (signer_called_checks_pass env r w u Hw Hin) as Hpass.
    destruct (checks_pass_trace env r w Hpass)
      as (download & order & rest & Hd & Ho & Ht & Hrest).
    destruct Hpass as (d' & o' & _ & Hd' & _ & Ho' & Hacc & Hpay & _).
    rewrite Hd in Hd'. injection Hd' as <-.
    rewrite Ho in Ho'. injection Ho' as <-.
    exists download, order, rest.
    rewrite Hw in Ht. cbn [app] in Ht.
    repeat (split; [assumption|]). exact Hrest.
Qed.

Lemma signer_called_only_after_checks_witness :
  (checks_pass env0 alice (db w0) /\
   In (CallSignURL "assets/one.pdf") (trace (snd (DownloadURL env0 alice w0)))) /\
  (~ checks_pass env0 bob (db w0) /\
   ~ In (CallSignURL "assets/two.pdf") (trace (snd (DownloadURL env0 bob w0)))).
Proof.
  destruct (signer_called_only_after_checks env0 alice w0 eq_refl) as [Hiff _].
  destruct (signer_called_only_after_checks env0 bob w0 eq_refl) as [Hiffb _].
  assert (Hin : In (CallSignURL "assets/one.pdf")
                   (trace (snd (DownloadURL env0 alice w0)))).
  { vm_compute. auto 10. }
  assert (Hnin : ~ In (CallSignURL "assets/two.pdf")
                     (trace (snd (DownloadURL env0 bob w0)))).
  { vm_compute. intuition discriminate. }
  split; split.
  - apply Hiff. exists "assets/one.pdf". exact Hin.
  - exact Hin.
  - intros Hpass. apply Hiffb in Hpass. destruct Hpass as [u Hu].
    vm_compute in Hu. intuition discriminate.
  - exact Hnin.
Defined.

(** ** The audit unit of work *)

Lemma commit_failure_leaves_store_unchanged env r w :
  commit_error env = true ->
  db (snd (DownloadURL env r w)) = db w.
Proof.
  intros Hcommit. rewrite DownloadURL_unfold.
  split_cases; exec; unfold fail, ret; cbn [fst snd db trace];
    rewrite ?Hcommit; try reflexivity; discriminate Hcommit.
Qed.

Lemma DownloadURL_never_panics env r w :
  fst (DownloadURL env r w) <> Panic.
Proof.
  rewrite DownloadURL_unfold.
  split_cases; exec; unfold fail, ret; cbn [fst snd db trace]; discriminate.
Qed.

(** C1: a call by the owner of a paid order whose commit (line 77) fails:
    the store is left as it was, but the handler still sends the download
    with status 200, since the error of the commit is never read. *)
Theorem commit_failure_is_sent_as_success :
  commit_error env_commit_fails = true /\
  In TxCommit (trace (snd (DownloadURL env_commit_fails alice w0))) /\
  db (snd (DownloadURL env_commit_fails alice w0)) = db w0 /\
  fst (DownloadURL env_commit_fails alice w0)
    = Sent (mkDownload "D1" "O1" "signed:assets/one.pdf" 0) /\
  status (fst (DownloadURL env_commit_fails alice w0)) = Some StatusOK /\
  status (fst (DownloadURL env_commit_fails alice w0))
    <> Some StatusInternalServerError.
Proof.
  split; [reflexivity|].
  split; [vm_compute; auto 10|].
  split; [apply commit_failure_leaves_store_unchanged; reflexivity|].
  split; [reflexivity|].
  split; [reflexivity|].
  vm_compute. discriminate.
Qed.

(** ** The count query against the window of the spec *)

(** Against C5 as worded: an event tagged "download" and "refresh" is in
    the count of the spec and not in the count of the query, and an event
    stamped after [now] is in the count of the query and not in the one of
    the spec. *)
Lemma count_access_ips_differs_from_spec :
  (In "download" (event_Changes two_tags) /\
   fst (count_access_ips env0 "O1" (w_ledger [two_tags])) = Sent 0%N /\
   Spec.CountDistinctAccessIPs "O1" (now env0) [two_tags] = 1%N) /\
  (now env0 < event_CreatedAt ahead /\
   fst (count_access_ips env0 "O1" (w_ledger [ahead])) = Sent 1%N /\
   Spec.CountDistinctAccessIPs "O1" (now env0) [ahead] = 0%N) /\
  ~ (forall evs,
       fst (count_access_ips env0 "O1" (w_ledger evs))
       = Sent (Spec.CountDistinctAccessIPs "O1" (now env0) evs)).
Proof.
  split; [|split].
  - split; [cbn; auto|]. split; reflexivity.
  - split; [reflexivity|]. split; reflexivity.
  - intros H. specialize (H [two_tags]). vm_compute in H. discriminate H.
Qed.

Example day_old_event_is_not_counted :
  event_CreatedAt day_old = now env0 - day /\
  fst (count_access_ips env0 "O1" (w_ledger [day_old])) = Sent 0%N.
Proof. vm_compute. split; reflexivity. Qed.

Lemma counted_addresses orderID since evs ip :
  In ip (nodup string_dec
           (map event_IP (filter (download_event_since orderID since) evs)))
  <-> exists e, In e evs /\ event_OrderID e = orderID /\
                event_Changes e = ["download"] /\
                since < event_CreatedAt e /\ event_IP e = ip.
Proof.
  rewrite nodup_In, in_map_iff. split.
  - intros (e & Hip & Hin). apply filter_In in Hin. destruct Hin as [Hin Hp].
    apply download_event_since_true in Hp. destruct Hp as (Ho & Ht & Hc).
    exists e. auto.
  - intros (e & Hin & Ho & Hc & Ht & Hip).
    exists e. split; [exact Hip|]. apply filter_In. split; [exact Hin|].
    apply download_event_since_true. auto.
Qed.

(** C5 (amended): the count the rate limiter gets is the number of distinct
    source addresses among the ledger events of the given order whose change
    tags are exactly the one tag "download" and whose timestamp is strictly
    later than now - 24h.  An event stamped exactly now - 24h is therefore
    not counted, nor are events of other orders or with other tags; no upper
    end of the window is checked. *)
Theorem count_access_ips_characterised env orderID w :
  exists ips : list string,
    NoDup ips /\
    (forall ip, In ip ips <->
       exists e, In e (events (db w)) /\ event_OrderID e = orderID /\
                 event_Changes e = ["download"] /\
                 now env - day < event_CreatedAt e /\ event_IP e = ip) /\
    fst (count_access_ips env orderID w) =
      (if count_rows_error env || count_scan_error env
       then Failed (internalServerError "Error signing download")
       else Sent (N.of_nat (List.length ips))).
Proof.
  exists (nodup string_dec
            (map event_IP
                 (filter (download_event_since orderID (now env - day))
                         (events (db w))))).
  split; [apply NoDup_nodup|]. split.
  - intros ip. apply counted_addresses.
  - rewrite count_access_ips_run. reflexivity.
Qed.

(** On a ledger whose download events carry the one tag only and where no
    event is stamped after [now], the count is the one of the spec. *)
Lemma count_distinct_ip_agrees_with_spec orderID now evs :
  (forall e, In e evs -> In "download" (event_Changes e) ->
             event_Changes e = ["download"]) ->
  (forall e, In e evs -> event_CreatedAt e <= now) ->
  count_distinct_ip orderID (now - day) evs
  = Spec.CountDistinctAccessIPs orderID now evs.
Proof.
  intros Htags Htime. unfold count_distinct_ip, Spec.CountDistinctAccessIPs.
  do 4 f_equal. apply filter_ext_in. intros e Hin.
  unfold download_event_since, Spec.in_window, Spec.tagged_download.
  destruct (String.eqb (event_OrderID e) orderID); cbn [andb]; [|reflexivity].
  assert (Hle : (event_CreatedAt e <=? now) = true)
    by (apply Z.leb_le, Htime, Hin).
  rewrite Hle, andb_true_r.
  destruct (now - day <? event_CreatedAt e); rewrite ?andb_false_r; [|reflexivity].
  cbn [andb]. rewrite andb_true_r.
  destruct (existsb (String.eqb "download") (event_Changes e)) eqn:Hex.
  - apply existsb_exists in Hex. destruct Hex as (t & Hin' & Ht).
    apply String.eqb_eq in Ht. subst t.
    apply String.eqb_eq, changes_column_download, Htags; assumption.
  - apply String.eqb_neq. intros Hc. apply changes_column_download in Hc.
    rewrite Hc in Hex. discriminate Hex.
Qed.

(** ** Listing *)

Lemma paginate_negative env r :
  offset r < 0 \/ limit r < 0 -> paginate env r = None.
Proof.
  intros H. unfold paginate.
  destruct (0 <=? offset r) eqn:Ho; cbn [andb]; [|reflexivity].
  destruct (0 <=? limit r) eqn:Hl; cbn [andb]; [|reflexivity].
  apply Z.leb_le in Ho, Hl. lia.
Qed.

(** Against C9 as worded: with an order identity and offset -1 the call
    does fail with status 400, but only after the order was looked up in
    the store. *)
Lemma bad_offset_with_order_queries_the_store :
  offset list_O1_bad_offset < 0 /\
  status (fst (DownloadList env0 list_O1_bad_offset w0)) = Some StatusBadRequest /\
  trace (snd (DownloadList env0 list_O1_bad_offset w0)) = [QueryOrder "O1"] /\
  ~ (status (fst (DownloadList env0 list_O1_bad_offset w0)) = Some StatusBadRequest /\
     trace (snd (DownloadList env0 list_O1_bad_offset w0)) = trace w0).
Proof.
  split; [reflexivity|]. split; [reflexivity|]. split; [reflexivity|].
  intros [_ H]. vm_compute in H. discriminate H.
Qed.

Example bad_offset_with_unknown_order_is_not_found :
  status (fst (DownloadList env0
    (mkRequest "" "10.0.0.1" (Some (mkClaims "alice")) false "O9" (-1) 10) w0))
  = Some StatusNotFound.
Proof. reflexivity. Qed.

Lemma paginated_run env r scope w :
  paginated env r scope w =
  match paginate env r with
  | None => (Failed (badRequestError "Bad Pagination Parameters"), w)
  | Some (off, lim) =>
      (if find_error env
       then Failed (internalServerError "Error during database query")
       else Sent (firstn (Z.to_nat lim)
                         (skipn (Z.to_nat off) (joined_downloads scope (db w)))),
       mkWorld (db w) (trace w ++ [QueryDownloadList scope off lim]))
  end.
Proof.
  unfold paginated. destruct (paginate env r) as [[off lim]|]; [|reflexivity].
  unfold find_downloads, bind, call, get_db, ret, fail. cbn [db trace].
  destruct (find_error env); reflexivity.
Qed.

(** [DownloadList] as the tree of its branches. *)
Lemma DownloadList_run env r w :
  DownloadList env r w =
  if String.eqb (order_id r) ""
  then match claims r with
       | Some c => paginated env r (ByUser (Subject c)) w
       | None => (Panic, w)
       end
  else
    let w1 := mkWorld (db w) (trace w ++ [QueryOrder (order_id r)]) in
    if order_query_error env
    then (Failed (internalServerError "Error during database query"), w1)
    else match find_order (order_id r) (db w) with
         | None => (Failed (notFoundError "Download order not found"), w1)
         | Some order =>
             if negb (hasOrderAccess r order)
             then (Failed (unauthorizedError
                     "You don't have permission to access this order"), w1)
             else if negb (String.eqb (order_PaymentState order) PaidState)
             then (Failed (unauthorizedError
                     "This order has not been completed yet"), w1)
             else paginated env r (ByOrder (order_ID order)) w1
         end.
Proof.
  unfold DownloadList.
  destruct (String.eqb (order_id r) "").
  - rewrite !bind_run. unfold ret at 1 2. cbn iota beta.
    destruct (claims r); reflexivity.
  - rewrite bind_run, bind_run, first_order_run. cbn iota beta.
    destruct (order_query_error env); [reflexivity|].
    destruct (find_order (order_id r) (db w)) as [order|]; [|reflexivity].
    unfold ret at 1. cbn iota beta. rewrite !bind_run.
    destruct (negb (hasOrderAccess r order)); [reflexivity|].
    destruct (negb (String.eqb (order_PaymentState order) PaidState));
      reflexivity.
Qed.

Ltac list_cases :=
  rewrite DownloadList_run; cbv zeta;
  repeat (rewrite ?paginated_run;
          match goal with
          | |- context [if ?b then _ else _] => destruct b eqn:?
          | |- context [match ?x with _ => _ end] => destruct x eqn:?
          end);
  cbn [fst snd db trace status Code].

(** C9 (amended): a [DownloadList] call with a negative offset or a negative
    limit never sends a list, never issues the listing query and never
    changes the store.  Without an order identity, for an identified caller,
    it fails with status 400 (BadRequest) and has not touched the store at
    all.  With an order identity, the lookup of that order is the one store
    access, made before the pagination parameters are looked at, and the
    call fails with status 400 exactly when that order is loaded, the caller
    has access to it and it is paid; otherwise it has failed earlier: with
    500 when the lookup fails, with 404 when no order has the id, with 401
    when the caller has no access or the order is not paid. *)
Theorem bad_pagination_is_rejected env r w :
  offset r < 0 \/ limit r < 0 ->
  trace w = [] ->
  db (snd (DownloadList env r w)) = db w /\
  (forall ds, fst (DownloadList env r w) <> Sent ds) /\
  (forall scope off lim,
     ~ In (QueryDownloadList scope off lim) (trace (snd (DownloadList env r w)))) /\
  (order_id r = "" -> claims r <> None ->
   status (fst (DownloadList env r w)) = Some StatusBadRequest /\
   trace (snd (DownloadList env r w)) = []) /\
  (order_id r <> "" ->
   trace (snd (DownloadList env r w)) = [QueryOrder (order_id r)] /\
   (status (fst (DownloadList env r w)) = Some StatusBadRequest <->
    order_query_error env = false /\
    exists order,
      find_order (order_id r) (db w) = Some order /\
      hasOrderAccess r order = true /\
      order_PaymentState order = PaidState) /\
   (order_query_error env = true ->
    status (fst (DownloadList env r w)) = Some StatusInternalServerError) /\
   (order_query_error env = false ->
    find_order (order_id r) (db w) = None ->
    status (fst (DownloadList env r w)) = Some StatusNotFound) /\
   (forall order,
      order_query_error env = false ->
      find_order (order_id r) (db w) = Some order ->
      hasOrderAccess r order = false \/ order_PaymentState order <> PaidState ->
      status (fst (DownloadList env r w)) = Some StatusUnauthorized)).
Proof.
  intros Hneg Hw. pose proof (paginate_negative env r Hneg) as Hpag.
  rewrite DownloadList_run. cbv zeta. rewrite Hw. cbn [app].
  split; [|split; [|split; [|split]]].
  - repeat (rewrite ?paginated_run, ?Hpag;
            match goal with
            | |- context [if ?b then _ else _] => destruct b
            | |- context [match ?x with _ => _ end] => destruct x
            end); rewrite ?paginated_run, ?Hpag; reflexivity.
  - intros ds.
    repeat (rewrite ?paginated_run, ?Hpag;
            match goal with
            | |- context [if ?b then _ else _] => destruct b
            | |- context [match ?x with _ => _ end] => destruct x
            end); rewrite ?paginated_run, ?Hpag; discriminate.
  - intros scope off lim.
    repeat (rewrite ?paginated_run, ?Hpag;
            match goal with
            | |- context [if ?b then _ else _] => destruct b
            | |- context [match ?x with _ => _ end] => destruct x
            end); rewrite ?paginated_run, ?Hpag;
      cbn [snd trace]; rewrite ?Hw; cbn [In]; intuition discriminate.
  - intros Hid Hclaims. rewrite Hid. cbn [String.eqb].
    destruct (claims r); [|congruence].
    rewrite paginated_run, Hpag. split; [reflexivity | exact Hw].
  - intros Hid. apply String.eqb_neq in Hid. rewrite Hid. split.
    { repeat (rewrite ?paginated_run, ?Hpag;
              match goal with
              | |- context [if ?b then _ else _] => destruct b
              | |- context [match ?x with _ => _ end] => destruct x
              end); rewrite ?paginated_run, ?Hpag; reflexivity. }
    destruct (order_query_error env) eqn:Hqo.
    { cbn [fst status]. split; [|split; [|split]].
      - split; [intros H; vm_compute in H; discriminate H
               | intros [H _]; discriminate H].
      - intros _. reflexivity.
      - intros H. discriminate H.
      - intros order H. discriminate H. }
    destruct (find_order (order_id r) (db w)) as [order|] eqn:Ho.
    2:{ cbn [fst status]. split; [|split; [|split]].
        - split; [intros H; vm_compute in H; discriminate H
                 | intros (_ & o & H & _); discriminate H].
        - intros H. discriminate H.
        - intros _ _. reflexivity.
        - intros o _ H. discriminate H. }
    destruct (hasOrderAccess r order) eqn:Hacc; cbn [negb].
    2:{ cbn [fst status]. split; [|split; [|split]].
        - split; [intros H; vm_compute in H; discriminate H
                 | intros (_ & o & [= <-] & H & _); congruence].
        - intros H. discriminate H.
        - intros _ H. discriminate H.
        - intros o _ _ _. reflexivity. }
    destruct (String.eqb (order_PaymentState order) PaidState) eqn:Hpay;
      cbn [negb].
    2:{ apply String.eqb_neq in Hpay. cbn [fst status].
        split; [|split; [|split]].
        - split; [intros H; vm_compute in H; discriminate H
                 | intros (_ & o & [= <-] & _ & H); congruence].
        - intros H. discriminate H.
        - intros _ H. discriminate H.
        - intros o _ _ _. reflexivity. }
    apply String.eqb_eq in Hpay. rewrite paginated_run, Hpag.
    cbn [fst status]. split; [|split; [|split]].
    + split; [|intros _; reflexivity].
      intros _. split; [reflexivity|]. exists order. auto.
    + intros H. discriminate H.
    + intros _ H. discriminate H.
    + intros o _ [= <-] [H|H]; congruence.
Qed.

Lemma bad_pagination_is_rejected_witness :
  (offset list_mine_bad_offset < 0 /\
   status (fst (DownloadList env0 list_mine_bad_offset w0)) = Some StatusBadRequest /\
   trace (snd (DownloadList env0 list_mine_bad_offset w0)) = []) /\
  (offset list_O1_bad_offset < 0 /\
   status (fst (DownloadList env0 list_O1_bad_offset w0)) = Some StatusBadRequest /\
   trace (snd (DownloadList env0 list_O1_bad_offset w0)) = [QueryOrder "O1"]).
Proof.
  destruct (bad_pagination_is_rejected env0 list_mine_bad_offset w0
              (or_introl eq_refl) eq_refl) as (_ & _ & _ & Hmine & _).
  destruct (bad_pagination_is_rejected env0 list_O1_bad_offset w0
              (or_introl eq_refl) eq_refl) as (_ & _ & _ & _ & HO1).
  split.
  - split; [reflexivity|]. apply Hmine; [reflexivity | discriminate].
  - split; [reflexivity|].
    destruct HO1 as (Ht & Hst & _); [discriminate|].
    split; [|exact Ht].
    apply Hst. split; [reflexivity|]. exists O1.
    split; [reflexivity|]. split; reflexivity.
Defined.

(** C10: [DownloadList] ends in a nil dereference exactly when the request
    carries no order identity and the caller is anonymous: on the path
    without an order the subject of the claims is read without a check
    (line 119), unlike in [DownloadURL], which never panics (lines 72-76). *)
Theorem listing_without_order_needs_claims env r w :
  (fst (DownloadList env r w) = Panic <-> order_id r = "" /\ claims r = None) /\
  fst (DownloadURL env r w) <> Panic.
Proof.
  split; [|apply DownloadURL_never_panics].
  split.
  - list_cases; try discriminate.
    intros _. split; [apply String.eqb_eq; assumption | reflexivity].
  - intros [Hid Hclaims]. rewrite DownloadList_run, Hid, Hclaims. reflexivity.
Qed.

Example anonymous_listing_panics :
  fst (DownloadList env0 list_anonymous w0) = Panic.
Proof. reflexivity. Qed.

(** ** Every run of [DownloadURL], by cases *)

Lemma DownloadURL_cases env r w :
  (exists e l,
      DownloadURL env r w = (Failed e, mkWorld (db w) (trace w ++ l)) /\
      forallb (fun c => negb (is_tx c)) l = true /\
      (Code e = StatusNotFound \/ Code e = StatusUnauthorized \/
       Code e = StatusInternalServerError))
  \/
  (exists download order signed,
      download_query_error env = false /\
      find_download (download_id r) (db w) = Some download /\
      order_query_error env = false /\
      find_order (download_OrderID download) (db w) = Some order /\
      hasOrderAccess r order = true /\
      order_PaymentState order = PaidState /\
      count_rows_error env = false /\
      count_scan_error env = false /\
      (count_distinct_ip (order_ID order) (now env - day) (events (db w))
       <= maxIPsPerDay)%N /\
      assets env (download_URL download) = Some signed /\
      DownloadURL env r w =
      (Sent (with_URL download signed),
       mkWorld (if commit_error env then db w
                else recorded env r order (with_URL download signed) (db w))
               (trace w ++
                [QueryDownload (download_id r);
                 QueryOrder (download_OrderID download);
                 QueryEventCount (order_ID order) (now env - day);
                 CallSignURL (download_URL download);
                 TxBegin;
                 TxUpdateDownloadCount (download_ID download);
                 TxCreateEvent (access_event env r order);
                 TxCommit]))).
Proof.
  rewrite DownloadURL_unfold.
  split_cases; exec; unfold fail, ret; cbn [fst snd db trace];
    rewrite <- ?app_assoc; cbn [app];
    try (left; do 2 eexists; split; [reflexivity|]; split; [reflexivity|];
         cbn; auto; fail);
    repeat match goal with
           | H : negb _ = false |- _ => apply negb_false_iff in H
           | H : orb _ _ = false |- _ => apply orb_false_iff in H; destruct H
           | H : (_ <? _)%N = false |- _ => apply N.ltb_ge in H
           | H : String.eqb _ _ = true |- _ => apply String.eqb_eq in H
           | H : match ?x with Some _ => _ | None => _ end = Found _ |- _ =>
               destruct x eqn:?; [injection H as <- | discriminate H]
           | H : option_map _ ?x = Some _ |- _ =>
               destruct x eqn:?; [cbn [option_map] in H; injection H as <- | discriminate H]
           end.
  all: try (exfalso; congruence).
  all: right; do 3 eexists;
    repeat (split; [first [eassumption | reflexivity]|]); reflexivity.
Qed.

Ltac tidy :=
  repeat match goal with
         | H : negb _ = false |- _ => apply negb_false_iff in H
         | H : negb _ = true |- _ => apply negb_true_iff in H
         | H : orb _ _ = false |- _ => apply orb_false_iff in H; destruct H
         | H : (_ <? _)%N = false |- _ => apply N.ltb_ge in H
         | H : (_ <? _)%N = true |- _ => apply N.ltb_lt in H
         | H : String.eqb _ _ = true |- _ => apply String.eqb_eq in H
         | H : String.eqb _ _ = false |- _ => apply String.eqb_neq in H
         | H : match ?x with Some _ => _ | None => _ end = Found _ |- _ =>
             destruct x eqn:?; [injection H as <- | discriminate H]
         | H : match ?x with Some _ => _ | None => _ end = RecordNotFound |- _ =>
             destruct x eqn:?; [discriminate H | clear H]
         | H : match ?x with Some _ => _ | None => _ end = QueryError |- _ =>
             destruct x; discriminate H
         | H : option_map _ ?x = Some _ |- _ =>
             destruct x eqn:?;
             [cbn [option_map] in H; injection H as <- | discriminate H]
         | H : option_map _ ?x = None |- _ =>
             destruct x eqn:?; [discriminate H | clear H]
         end.

(** ** Which lookups decide which answer *)

(** X1: [DownloadURL] answers 404 exactly when the store answers and either
    no download has the requested id, or the download is there and no order
    has the id the download points to. *)
Theorem not_found_exactly_when_a_lookup_misses env r w :
  status (fst (DownloadURL env r w)) = Some StatusNotFound <->
  download_query_error env = false /\
  (find_download (download_id r) (db w) = None \/
   exists download,
     find_download (download_id r) (db w) = Some download /\
     order_query_error env = false /\
     find_order (download_OrderID download) (db w) = None).
Proof.
  split.
  - rewrite DownloadURL_unfold.
    split_cases; exec; unfold fail, ret; cbn [fst snd db trace status Code];
      intros Hst; try (vm_compute in Hst; discriminate Hst); tidy;
      (split; [reflexivity|]);
      first [ left; first [reflexivity | assumption]
            | right; eexists; split; [first [reflexivity | eassumption]|];
              split; [reflexivity | assumption] ].
  - intros [Hqd [Hnone | (download & Hd & Hqo & Hnone)]];
      exec_url; rewrite Hqd, ?Hnone, ?Hd; [reflexivity|].
    exec. rewrite Hqo, Hnone. reflexivity.
Qed.

(** X2: [DownloadURL] answers 401 exactly when the download and its order
    were loaded and one of three things holds: the caller has no access to
    the order, the order is not paid, or the count query answered with more
    than 50 addresses. *)
Theorem unauthorized_exactly_for_three_reasons env r w :
  status (fst (DownloadURL env r w)) = Some StatusUnauthorized <->
  exists download order,
    download_query_error env = false /\
    find_download (download_id r) (db w) = Some download /\
    order_query_error env = false /\
    find_order (download_OrderID download) (db w) = Some order /\
    (hasOrderAccess r order = false \/
     order_PaymentState order <> PaidState \/
     (count_rows_error env = false /\ count_scan_error env = false /\
      (maxIPsPerDay <
       count_distinct_ip (order_ID order) (now env - day) (events (db w)))%N)).
Proof.
  split.
  - rewrite DownloadURL_unfold.
    split_cases; exec; unfold fail, ret; cbn [fst snd db trace status Code];
      intros Hst; try (vm_compute in Hst; discriminate Hst); tidy;
      do 2 eexists;
      (split; [reflexivity|]); (split; [first [eassumption|reflexivity]|]);
      (split; [reflexivity|]); (split; [first [eassumption|reflexivity]|]);
      first [ left; assumption
            | right; left; assumption
            | right; right; repeat split; assumption ].
  - intros (download & order & Hqd & Hd & Hqo & Ho & Hwhy).
    exec_url. rewrite Hqd, Hd. exec. rewrite Hqo, Ho.
    destruct (hasOrderAccess r order) eqn:Hacc; cbn [negb]; [|reflexivity].
    destruct (String.eqb (order_PaymentState order) PaidState) eqn:Hpay;
      cbn [negb]; [|reflexivity].
    apply String.eqb_eq in Hpay.
    destruct Hwhy as [Hno | [Hno | (Hrows & Hscan & Hc)]];
      [discriminate Hno | contradiction |].
    exec. rewrite Hrows, Hscan. cbn [orb].
    apply N.ltb_lt in Hc. rewrite Hc. reflexivity.
Qed.

Lemma checks_pass_sent env r w download signed :
  checks_pass env r (db w) ->
  find_download (download_id r) (db w) = Some download ->
  assets env (download_URL download) = Some signed ->
  fst (DownloadURL env r w) = Sent (with_URL download signed).
Proof.
  intros (download' & order & Hqd & Hd' & Hqo & Ho & Hacc & Hpay & Hrows
          & Hscan & Hc) Hd Hsign.
  rewrite Hd in Hd'. injection Hd' as <-.
  exec_url. rewrite Hqd, Hd. exec. rewrite Hqo, Ho, Hacc, Hpay.
  cbn [negb]. rewrite String.eqb_refl. cbn [negb]. exec.
  rewrite Hrows, Hscan. cbn [orb].
  apply N.ltb_ge in Hc. rewrite Hc. exec.
  rewrite Hsign. cbn [option_map]. exec. reflexivity.
Qed.

(** X3: [DownloadURL] answers with status 200 exactly when all the checks
    pass and the signer answers for the stored URL of the download; and
    whenever they do, what it sends is the loaded download carrying the
    signed URL.  Whether the commit succeeds plays no part. *)
Theorem sent_exactly_when_checked_and_signed env r w :
  (status (fst (DownloadURL env r w)) = Some StatusOK <->
   checks_pass env r (db w) /\
   exists download signed,
     find_download (download_id r) (db w) = Some download /\
     assets env (download_URL download) = Some signed) /\
  (forall download signed,
     checks_pass env r (db w) ->
     find_download (download_id r) (db w) = Some download ->
     assets env (download_URL download) = Some signed ->
     fst (DownloadURL env r w) = Sent (with_URL download signed)).
Proof.
  split; [split|].
  - intros Hst.
    destruct (DownloadURL_cases env r w)
      as [(e & l & Hrun & _ & Hcode)
         |(download & order & signed & Hqd & Hd & Hqo & Ho & Hacc & Hpay
           & Hrows & Hscan & Hc & Hsign & Hrun)];
      rewrite Hrun in Hst; cbn [fst status] in Hst.
    + exfalso. injection Hst as Hst. rewrite Hst in Hcode.
      vm_compute in Hcode. intuition discriminate.
    + split.
      * exists download, order. repeat (split; [assumption|]). assumption.
      * exists download, signed. split; assumption.
  - intros (Hpass & download & signed & Hd & Hsign).
    rewrite (checks_pass_sent env r w download signed Hpass Hd Hsign).
    reflexivity.
  - intros download signed Hpass Hd Hsign.
    exact (checks_pass_sent env r w download signed Hpass Hd Hsign).
Qed.

(** X4: [DownloadURL] answers 500 only when a collaborator failed: one of
    the three queries, the scan of the count, or the signer.  A failing
    commit is not among the causes. *)
Theorem internal_error_needs_a_failing_collaborator env r w :
  status (fst (DownloadURL env r w)) = Some StatusInternalServerError ->
  download_query_error env = true \/
  order_query_error env = true \/
  count_rows_error env = true \/
  count_scan_error env = true \/
  exists download,
    find_download (download_id r) (db w) = Some download /\
    assets env (download_URL download) = None.
Proof.
  rewrite DownloadURL_unfold.
  split_cases; exec; unfold fail, ret; cbn [fst snd db trace status Code];
    intros Hst; try (vm_compute in Hst; discriminate Hst); tidy;
    auto;
    try match goal with
        | H : orb _ _ = true |- _ =>
            apply orb_true_iff in H; destruct H; auto
        end;
    do 4 right; eexists; split; [reflexivity | eassumption].
Qed.

Lemma internal_error_needs_a_failing_collaborator_witness :
  status (fst (DownloadURL env_sign_fails alice w0))
    = Some StatusInternalServerError /\
  assets env_sign_fails (download_URL D1) = None /\
  commit_error env_sign_fails = false.
Proof.
  assert (Hst : status (fst (DownloadURL env_sign_fails alice w0))
                = Some StatusInternalServerError) by reflexivity.
  split; [exact Hst|].
  destruct (internal_error_needs_a_failing_collaborator env_sign_fails alice w0 Hst)
    as [H | [H | [H | [H | (download & Hd & Hsign)]]]];
    try discriminate H.
  split; [|reflexivity].
  injection Hd as <-. exact Hsign.
Defined.

(** ** What a run writes *)

(** X5: only a run of [DownloadURL] that is answered with 200 writes: in
    every run either the store is left exactly as it was, or the run ends
    with status 200 and its commit went through.  A run answered 404, 401
    or 500, and a run whose commit fails, leave the store untouched. *)
Theorem only_a_sent_run_writes env r w :
  db (snd (DownloadURL env r w)) = db w \/
  (status (fst (DownloadURL env r w)) = Some StatusOK /\
   commit_error env = false /\
   In TxCommit (trace (snd (DownloadURL env r w)))).
Proof.
  destruct (DownloadURL_cases env r w)
    as [(e & l & Hrun & _)
       |(download & order & signed & _ & _ & _ & _ & _ & _ & _ & _ & _ & _ & Hrun)];
    rewrite Hrun; cbn [fst snd db trace status].
  - left. reflexivity.
  - destruct (commit_error env); [left; reflexivity | right].
    split; [reflexivity|]. split; [reflexivity|].
    apply in_or_app. right. cbn [In]. auto 10.
Qed.

(** X6: the calls a run of [DownloadURL] adds to the trace hold a
    transaction exactly when the run ends with 200; the transaction then
    closes the run, comes after a call of the signer, and is made of one
    begin, the one update, the one insert and one commit.  No run opens a
    transaction it does not commit. *)
Theorem transaction_only_on_success_and_committed env r w :
  exists calls,
    trace (snd (DownloadURL env r w)) = (trace w ++ calls)%list /\
    ((status (fst (DownloadURL env r w)) = Some StatusOK /\
      exists before url id e,
        calls = (before ++ [CallSignURL url; TxBegin; TxUpdateDownloadCount id;
                            TxCreateEvent e; TxCommit])%list /\
        forallb (fun c => negb (is_tx c)) before = true)
     \/
     (status (fst (DownloadURL env r w)) <> Some StatusOK /\
      forallb (fun c => negb (is_tx c)) calls = true)).
Proof.
  destruct (DownloadURL_cases env r w)
    as [(e & l & Hrun & Hl & Hcode)
       |(download & order & signed & _ & _ & _ & _ & _ & _ & _ & _ & _ & _ & Hrun)];
    rewrite Hrun; cbn [fst snd trace status].
  - exists l. split; [reflexivity|]. right. split; [|exact Hl].
    intros [= Hst]. rewrite Hst in Hcode. vm_compute in Hcode.
    intuition discriminate.
  - eexists. split; [reflexivity|]. left. split; [reflexivity|].
    exists [QueryDownload (download_id r); QueryOrder (download_OrderID download);
            QueryEventCount (order_ID order) (now env - day)].
    do 3 eexists. split; reflexivity.
Qed.

(** ** Sequences of requests *)

Lemma DownloadList_keeps_db env r w :
  db (snd (DownloadList env r w)) = db w.
Proof. list_cases; reflexivity. Qed.

Lemma kept_row_refl x : kept_row x x.
Proof. unfold kept_row. repeat split; reflexivity. Qed.

Lemma kept_rows_refl l : Forall2 kept_row l l.
Proof. induction l; constructor; [apply kept_row_refl | assumption]. Qed.

Lemma kept_rows_trans l1 l2 l3 :
  Forall2 kept_row l1 l2 -> Forall2 kept_row l2 l3 -> Forall2 kept_row l1 l3.
Proof.
  intros H12. revert l3.
  induction H12 as [|x y l1 l2 Hxy _ IH]; intros l3 H23; inversion H23; subst;
    constructor; [|apply IH; assumption].
  unfold kept_row in *.
  repeat match goal with H : _ /\ _ |- _ => destruct H end.
  repeat split; try congruence. lia.
Qed.

Lemma kept_rows_recorded env r order download d :
  Forall2 kept_row (downloads d) (downloads (recorded env r order download d)).
Proof.
  unfold recorded. cbn [downloads].
  induction (downloads d) as [|x l IH]; cbn [map]; constructor; [|exact IH].
  destruct (String.eqb (download_ID x) (download_ID download));
    [|apply kept_row_refl].
  unfold kept_row, incr_count. cbn. repeat split. lia.
Qed.

Lemma serve_one_grows s w :
  orders (db (serve_one s w)) = orders (db w) /\
  Forall2 kept_row (downloads (db w)) (downloads (db (serve_one s w))) /\
  exists added,
    events (db (serve_one s w)) = (events (db w) ++ added)%list /\
    (List.length added <= (if is_get s then 1 else 0))%nat /\
    Forall (fun e => event_Type e = EventUpdated /\
                     event_Changes e = ["download"]) added.
Proof.
  assert (Hsame : forall w', db w' = db w ->
    orders (db w') = orders (db w) /\
    Forall2 kept_row (downloads (db w)) (downloads (db w')) /\
    exists added,
      events (db w') = (events (db w) ++ added)%list /\
      (List.length added <= 0)%nat /\
      Forall (fun e => event_Type e = EventUpdated /\
                       event_Changes e = ["download"]) added).
  { intros w' ->. split; [reflexivity|]. split; [apply kept_rows_refl|].
    exists []. rewrite app_nil_r. split; [reflexivity|].
    split; [cbn; lia | constructor]. }
  destruct s as [env r|env r]; cbn [serve_one is_get].
  - destruct (DownloadURL_cases env r w)
      as [(e & l & Hrun & _)
         |(download & order & signed & _ & _ & _ & _ & _ & _ & _ & _ & _ & _ & Hrun)];
      rewrite Hrun; cbn [snd].
    + destruct (Hsame (mkWorld (db w) (trace w ++ l)) eq_refl)
        as (Ho & Hd & added & He & Hlen & Hall).
      split; [exact Ho|]. split; [exact Hd|]. exists added.
      split; [exact He|]. split; [lia | exact Hall].
    + cbn [db]. destruct (commit_error env).
      * split; [reflexivity|]. split; [apply kept_rows_refl|].
        exists []. rewrite app_nil_r. split; [reflexivity|].
        split; [cbn; lia | constructor].
      * split; [reflexivity|]. split; [apply kept_rows_recorded|].
        exists [access_event env r order]. split; [reflexivity|].
        split; [cbn; lia|]. constructor; [split; reflexivity | constructor].
  - apply Hsame. apply DownloadList_keeps_db.
Qed.

(** X7: whatever sequence of download and listing requests is served, for
    whatever callers and whatever the collaborators answer, the orders stay
    as they were, every download row keeps its id, order, and stored URL
    with a count that never goes down, and the ledger is the old ledger
    followed by at most one event per download request, each of kind
    updated and tagged "download": nothing is removed or rewritten. *)
Theorem serving_requests_only_grows_the_store l w :
  orders (db (serve l w)) = orders (db w) /\
  Forall2 kept_row (downloads (db w)) (downloads (db (serve l w))) /\
  exists added,
    events (db (serve l w)) = (events (db w) ++ added)%list /\
    (List.length added <= List.length (filter is_get l))%nat /\
    Forall (fun e => event_Type e = EventUpdated /\
                     event_Changes e = ["download"]) added.
Proof.
  revert w. induction l as [|s l IH]; intros w.
  - cbn [serve fold_left filter]. split; [reflexivity|].
    split; [apply kept_rows_refl|]. exists []. rewrite app_nil_r.
    split; [reflexivity|]. split; [cbn; lia | constructor].
  - change (serve (s :: l) w) with (serve l (serve_one s w)).
    destruct (serve_one_grows s w) as (Ho1 & Hd1 & a1 & He1 & Hl1 & Ha1).
    destruct (IH (serve_one s w)) as (Ho2 & Hd2 & a2 & He2 & Hl2 & Ha2).
    split; [congruence|]. split; [exact (kept_rows_trans _ _ _ Hd1 Hd2)|].
    exists (a1 ++ a2)%list. split; [rewrite He2, He1, app_assoc; reflexivity|].
    split.
    + rewrite length_app. cbn [filter].
      destruct (is_get s); cbn [List.length]; lia.
    + apply Forall_app. split; assumption.
Qed.

Lemma paginate_some env r off lim :
  paginate env r = Some (off, lim) ->
  off = offset r /\ lim = limit r /\ 0 <= off /\ 0 <= lim <= page_bound env.
Proof.
  unfold paginate.
  destruct (0 <=? offset r) eqn:Ho; cbn [andb]; [|discriminate].
  destruct (0 <=? limit r) eqn:Hl; cbn [andb]; [|discriminate].
  destruct (limit r <=? page_bound env) eqn:Hb; [|discriminate].
  intros [= <- <-]. apply Z.leb_le in Ho, Hl, Hb. lia.
Qed.

(** ** Recording an access and counting it *)

Lemma NoDup_same_length (l1 l2 : list string) :
  NoDup l1 -> NoDup l2 -> (forall x, In x l1 <-> In x l2) ->
  List.length l1 = List.length l2.
Proof.
  intros H1 H2 Hsame. apply Nat.le_antisymm.
  - apply NoDup_incl_length; [exact H1 | intros x Hx; apply Hsame, Hx].
  - apply NoDup_incl_length; [exact H2 | intros x Hx; apply Hsame, Hx].
Qed.

Lemma counted_ips_In orderID since evs ip :
  In ip (counted_ips orderID since evs) <->
  exists e, In e evs /\ download_event_since orderID since e = true /\
            event_IP e = ip.
Proof.
  unfold counted_ips. rewrite nodup_In, in_map_iff. split.
  - intros (e & Hip & Hin). apply filter_In in Hin. destruct Hin as [Hin Hp].
    exists e. auto.
  - intros (e & Hin & Hp & Hip). exists e. split; [exact Hip|].
    apply filter_In. auto.
Qed.

Lemma count_distinct_ip_counted orderID since evs :
  count_distinct_ip orderID since evs
  = N.of_nat (List.length (counted_ips orderID since evs)).
Proof. reflexivity. Qed.

Lemma access_event_counts env r order since :
  download_event_since (order_ID order) since (access_event env r order)
  = (since <? stamp env).
Proof.
  unfold download_event_since, access_event, changes_column.
  cbn [event_OrderID event_CreatedAt event_Changes String.concat].
  rewrite String.eqb_refl. cbn [andb]. apply andb_true_r.
Qed.

Lemma count_with_counted_address env r order since evs n :
  (stamp env <= since \/
   In (RemoteAddr r) (counted_ips (order_ID order) since evs)) ->
  count_distinct_ip (order_ID order) since
    (evs ++ repeat (access_event env r order) n)
  = count_distinct_ip (order_ID order) since evs.
Proof.
  intros Hold. rewrite !count_distinct_ip_counted. f_equal.
  apply NoDup_same_length; try apply NoDup_nodup.
  intros ip. rewrite !counted_ips_In. split.
  - intros (e & Hin & Hp & Hip). apply in_app_or in Hin.
    destruct Hin as [Hin|Hin]; [exists e; auto|].
    apply repeat_spec in Hin. subst e.
    rewrite access_event_counts in Hp. apply Z.ltb_lt in Hp.
    destruct Hold as [Hold|Hold]; [lia|].
    apply counted_ips_In in Hold. cbn [access_event event_IP] in Hip.
    subst ip. exact Hold.
  - intros (e & Hin & Hp & Hip). exists e. split; [|auto].
    apply in_or_app. left. exact Hin.
Qed.

Lemma count_with_new_address env r order since evs n :
  since < stamp env ->
  ~ In (RemoteAddr r) (counted_ips (order_ID order) since evs) ->
  count_distinct_ip (order_ID order) since
    (evs ++ repeat (access_event env r order) (S n))
  = (count_distinct_ip (order_ID order) since evs + 1)%N.
Proof.
  intros Hin_window Hnew. rewrite !count_distinct_ip_counted.
  replace (N.of_nat (List.length (counted_ips (order_ID order) since evs)) + 1)%N
    with (N.of_nat (List.length
            (RemoteAddr r :: counted_ips (order_ID order) since evs)))
    by (cbn [List.length]; lia).
  f_equal. apply NoDup_same_length.
  - apply NoDup_nodup.
  - constructor; [exact Hnew | apply NoDup_nodup].
  - intros ip. cbn [In]. rewrite !counted_ips_In. split.
    + intros (e & Hin & Hp & Hip). apply in_app_or in Hin.
      destruct Hin as [Hin|Hin]; [right; exists e; auto|].
      apply repeat_spec in Hin. subst e. left. exact Hip.
    + intros [Hip | (e & Hin & Hp & Hip)].
      * exists (access_event env r order). split; [|split].
        -- apply in_or_app. right. cbn [repeat In]. left. reflexivity.
        -- rewrite access_event_counts. apply Z.ltb_lt. exact Hin_window.
        -- exact Hip.
      * exists e. split; [apply in_or_app; left; exact Hin | auto].
Qed.

Lemma count_after_access env r order since evs :
  count_distinct_ip (order_ID order) since (evs ++ [access_event env r order])
  = if (since <? stamp env)
       && negb (existsb (String.eqb (RemoteAddr r))
                        (counted_ips (order_ID order) since evs))
    then (count_distinct_ip (order_ID order) since evs + 1)%N
    else count_distinct_ip (order_ID order) since evs.
Proof.
  change [access_event env r order] with (repeat (access_event env r order) 1).
  destruct (since <? stamp env) eqn:Hw; cbn [andb].
  - apply Z.ltb_lt in Hw.
    destruct (existsb (String.eqb (RemoteAddr r))
                (counted_ips (order_ID order) since evs)) eqn:Hex; cbn [negb].
    + apply count_with_counted_address. right.
      apply existsb_exists in Hex. destruct Hex as (ip & Hin & Heq).
      apply String.eqb_eq in Heq. subst ip. exact Hin.
    + apply count_with_new_address; [exact Hw|].
      intros Hin. assert (Hex' : existsb (String.eqb (RemoteAddr r))
                  (counted_ips (order_ID order) since evs) = true).
      { apply existsb_exists. exists (RemoteAddr r). split; [exact Hin|].
        apply String.eqb_refl. }
      congruence.
  - apply Z.ltb_ge in Hw. apply count_with_counted_address. left. exact Hw.
Qed.

(** X9: a run of [DownloadURL] changes the count of distinct addresses of
    the order of the download by at most one; and a caller whose address is
    already counted never raises it, however the run ends. *)
Theorem a_run_raises_the_count_by_at_most_one env r w download order :
  find_download (download_id r) (db w) = Some download ->
  find_order (download_OrderID download) (db w) = Some order ->
  ((count_distinct_ip (order_ID order) (now env - day)
      (events (db (snd (DownloadURL env r w))))
    = count_distinct_ip (order_ID order) (now env - day) (events (db w)))
   \/
   (count_distinct_ip (order_ID order) (now env - day)
      (events (db (snd (DownloadURL env r w))))
    = count_distinct_ip (order_ID order) (now env - day) (events (db w)) + 1)%N)
  /\
  (In (RemoteAddr r)
      (counted_ips (order_ID order) (now env - day) (events (db w))) ->
   count_distinct_ip (order_ID order) (now env - day)
     (events (db (snd (DownloadURL env r w))))
   = count_distinct_ip (order_ID order) (now env - day) (events (db w))).
Proof.
  intros Hd Ho.
  destruct (DownloadURL_cases env r w)
    as [(e & l & Hrun & _)
       |(download' & order' & signed & _ & Hd' & _ & Ho' & _ & _ & _ & _ & _ & _ & Hrun)];
    rewrite Hrun; cbn [snd db].
  - split; [left; reflexivity | intros _; reflexivity].
  - rewrite Hd in Hd'. injection Hd' as <-.
    rewrite Ho in Ho'. injection Ho' as <-.
    destruct (commit_error env);
      [split; [left; reflexivity | intros _; reflexivity]|].
    cbn [recorded events]. rewrite count_after_access. split.
    + destruct (_ && _); [right | left]; reflexivity.
    + intros Hin.
      assert (Hex : existsb (String.eqb (RemoteAddr r))
                (counted_ips (order_ID order) (now env - day) (events (db w)))
              = true).
      { apply existsb_exists. exists (RemoteAddr r). split; [exact Hin|].
        apply String.eqb_refl. }
      rewrite Hex, andb_false_r. reflexivity.
Qed.

Lemma a_run_raises_the_count_by_at_most_one_witness :
  find_download (download_id alice) (db w0) = Some D1 /\
  count_distinct_ip "O1" (now env0 - day) (events (db w0)) = 0%N /\
  count_distinct_ip "O1" (now env0 - day)
    (events (db (snd (DownloadURL env0 alice w0)))) = 1%N /\
  (count_distinct_ip (order_ID O1) (now env0 - day)
     (events (db (snd (DownloadURL env0 alice w0))))
   = count_distinct_ip (order_ID O1) (now env0 - day) (events (db w0))
   \/
   count_distinct_ip (order_ID O1) (now env0 - day)
     (events (db (snd (DownloadURL env0 alice w0))))
   = (count_distinct_ip (order_ID O1) (now env0 - day) (events (db w0)) + 1)%N).
Proof.
  split; [reflexivity|]. split; [reflexivity|]. split; [reflexivity|].
  exact (proj1 (a_run_raises_the_count_by_at_most_one env0 alice w0 D1 O1
                  eq_refl eq_refl)).
Defined.

Lemma DownloadURL_sent env r w download order signed :
  download_query_error env = false ->
  order_query_error env = false ->
  count_rows_error env = false ->
  count_scan_error env = false ->
  find_download (download_id r) (db w) = Some download ->
  find_order (download_OrderID download) (db w) = Some order ->
  hasOrderAccess r order = true ->
  order_PaymentState order = PaidState ->
  (count_distinct_ip (order_ID order) (now env - day) (events (db w))
   <= maxIPsPerDay)%N ->
  assets env (download_URL download) = Some signed ->
  fst (DownloadURL env r w) = Sent (with_URL download signed) /\
  db (snd (DownloadURL env r w))
  = (if commit_error env then db w
     else recorded env r order (with_URL download signed) (db w)).
Proof.
  intros Hqd Hqo Hrows Hscan Hd Ho Hacc Hpay Hc Hsign.
  exec_url. rewrite Hqd, Hd. exec. rewrite Hqo, Ho, Hacc, Hpay.
  cbn [negb]. rewrite String.eqb_refl. cbn [negb]. exec.
  rewrite Hrows, Hscan. cbn [orb].
  apply N.ltb_ge in Hc. rewrite Hc. exec.
  rewrite Hsign. cbn [option_map]. exec. split; reflexivity.
Qed.

Lemma count_distinct_ip_app_le orderID since evs more :
  (count_distinct_ip orderID since evs
   <= count_distinct_ip orderID since (evs ++ more))%N.
Proof.
  rewrite !count_distinct_ip_counted.
  assert (Hle : (List.length (counted_ips orderID since evs)
                 <= List.length (counted_ips orderID since (evs ++ more)))%nat);
    [|lia].
  apply NoDup_incl_length; [apply NoDup_nodup|].
  intros ip. rewrite !counted_ips_In. intros (e & Hin & Hp).
  exists e. split; [apply in_or_app; left; exact Hin | exact Hp].
Qed.

Lemma count_with_repeated_access env r order since evs n :
  count_distinct_ip (order_ID order) since
    (evs ++ repeat (access_event env r order) (S n))
  = count_distinct_ip (order_ID order) since (evs ++ [access_event env r order]).
Proof.
  rewrite !count_distinct_ip_counted. f_equal.
  apply NoDup_same_length; try apply NoDup_nodup.
  intros ip. rewrite !counted_ips_In.
  split; intros (e & Hin & Hp); exists e; (split; [|exact Hp]);
    apply in_app_or in Hin; apply in_or_app;
    (destruct Hin as [Hin|Hin]; [left; exact Hin | right]).
  - apply repeat_spec in Hin. subst e. left. reflexivity.
  - destruct Hin as [<-|[]]. cbn [repeat In]. left. reflexivity.
Qed.

(** X10: the limiter bounds addresses, not downloads.  When the count of
    the order with the caller's own address included is at most 50 and the
    collaborators answer, the same request can be repeated any number of
    times: after [n] runs the stored count of the download is up by [n],
    the ledger holds [n] more events of the caller, and the next run is
    sent with status 200 as well. *)
Theorem same_address_can_repeat env r w download order signed n :
  download_query_error env = false ->
  order_query_error env = false ->
  count_rows_error env = false ->
  count_scan_error env = false ->
  commit_error env = false ->
  find_download (download_id r) (db w) = Some download ->
  find_order (download_OrderID download) (db w) = Some order ->
  hasOrderAccess r order = true ->
  order_PaymentState order = PaidState ->
  assets env (download_URL download) = Some signed ->
  (count_distinct_ip (order_ID order) (now env - day)
     (events (db w) ++ [access_event env r order]) <= maxIPsPerDay)%N ->
  option_map download_DownloadCount
    (find_download (download_id r)
       (db (serve (repeat (GetDownload env r) n) w)))
  = Some (download_DownloadCount download + N.of_nat n)%N /\
  events (db (serve (repeat (GetDownload env r) n) w))
  = (events (db w) ++ repeat (access_event env r order) n)%list /\
  status (fst (DownloadURL env r (serve (repeat (GetDownload env r) n) w)))
  = Some StatusOK.
Proof.
  intros Hqd Hqo Hrows Hscan Hcommit.
  revert w download.
  induction n as [|n IH]; intros w download Hd Ho Hacc Hpay Hsign Hc.
  - cbn [repeat serve fold_left]. rewrite Hd, app_nil_r, N.add_0_r.
    split; [reflexivity|]. split; [reflexivity|].
    assert (Hc0 : (count_distinct_ip (order_ID order) (now env - day)
                     (events (db w)) <= maxIPsPerDay)%N).
    { eapply N.le_trans; [apply count_distinct_ip_app_le | exact Hc]. }
    destruct (DownloadURL_sent env r w download order signed
                Hqd Hqo Hrows Hscan Hd Ho Hacc Hpay Hc0 Hsign) as [Hout _].
    rewrite Hout. reflexivity.
  - change (serve (repeat (GetDownload env r) (S n)) w)
      with (serve (repeat (GetDownload env r) n) (snd (DownloadURL env r w))).
    assert (Hc0 : (count_distinct_ip (order_ID order) (now env - day)
                     (events (db w)) <= maxIPsPerDay)%N).
    { eapply N.le_trans; [apply count_distinct_ip_app_le | exact Hc]. }
    destruct (DownloadURL_sent env r w download order signed
                Hqd Hqo Hrows Hscan Hd Ho Hacc Hpay Hc0 Hsign) as [_ Hdb].
    rewrite Hcommit in Hdb.
    assert (Hd1 : find_download (download_id r) (db (snd (DownloadURL env r w)))
                  = Some (incr_count download)).
    { rewrite Hdb. unfold recorded, with_URL. cbn [download_ID].
      exact (find_download_recorded env r order download _ _ Hd). }
    assert (Ho1 : find_order (download_OrderID (incr_count download))
                    (db (snd (DownloadURL env r w))) = Some order).
    { rewrite Hdb. exact Ho. }
    assert (He1 : events (db (snd (DownloadURL env r w)))
                  = (events (db w) ++ [access_event env r order])%list).
    { rewrite Hdb. reflexivity. }
    assert (Hc1 : (count_distinct_ip (order_ID order) (now env - day)
                     (events (db (snd (DownloadURL env r w)))
                      ++ [access_event env r order]) <= maxIPsPerDay)%N).
    { rewrite He1, <- app_assoc.
      change ([access_event env r order] ++ [access_event env r order])%list
        with (repeat (access_event env r order) 2).
      rewrite count_with_repeated_access. exact Hc. }
    destruct (IH (snd (DownloadURL env r w)) (incr_count download)
                Hd1 Ho1 Hacc Hpay Hsign Hc1) as (Hcount & Hev & Hst).
    split; [|split].
    + rewrite Hcount. cbn [incr_count download_DownloadCount]. f_equal. lia.
    + rewrite Hev, He1, <- app_assoc. reflexivity.
    + exact Hst.
Qed.

Lemma same_address_can_repeat_witness :
  option_map download_DownloadCount
    (find_download "D1" (db (serve (repeat (GetDownload env0 alice) 3) w0)))
  = Some 3%N /\
  List.length (events (db (serve (repeat (GetDownload env0 alice) 3) w0))) = 3%nat /\
  status (fst (DownloadURL env0 alice
                 (serve (repeat (GetDownload env0 alice) 3) w0)))
  = Some StatusOK.
Proof.
  destruct (same_address_can_repeat env0 alice w0 D1 O1 "signed:assets/one.pdf" 3
              eq_refl eq_refl eq_refl eq_refl eq_refl eq_refl eq_refl
              eq_refl eq_refl eq_refl)
    as (Hcount & Hev & Hst).
  { vm_compute. discriminate. }
  split; [exact Hcount|]. split; [rewrite Hev; reflexivity | exact Hst].
Defined.

Lemma serve_appends l w :
  exists added, events (db (serve l w)) = (events (db w) ++ added)%list.
Proof.
  revert w. induction l as [|s l IH]; intros w.
  - exists []. cbn [serve fold_left]. rewrite app_nil_r. reflexivity.
  - change (serve (s :: l) w) with (serve l (serve_one s w)).
    destruct (serve_one_grows s w) as (_ & _ & a1 & He1 & _).
    destruct (IH (serve_one s w)) as (a2 & He2).
    exists (a1 ++ a2)%list. rewrite He2, He1, app_assoc. reflexivity.
Qed.

(** X11: the check comes before the record, so the 51st address gets in
    and then closes the order.  With 50 addresses counted, a request from a
    new address is sent with status 200 and recorded.  From then on, after
    whatever further requests were served, a request for a download of that
    order is answered 401, from whatever caller and address (the recorded
    ones included) and at whatever clock, as long as the store answers and
    the 51 recorded accesses are still inside the last 24 hours of that
    clock. *)
Theorem fifty_first_address_closes_the_order env r w download order signed :
  download_query_error env = false ->
  order_query_error env = false ->
  count_rows_error env = false ->
  count_scan_error env = false ->
  commit_error env = false ->
  find_download (download_id r) (db w) = Some download ->
  find_order (download_OrderID download) (db w) = Some order ->
  hasOrderAccess r order = true ->
  order_PaymentState order = PaidState ->
  assets env (download_URL download) = Some signed ->
  count_distinct_ip (order_ID order) (now env - day) (events (db w)) = 50%N ->
  ~ In (RemoteAddr r)
       (counted_ips (order_ID order) (now env - day) (events (db w))) ->
  now env - day < stamp env ->
  status (fst (DownloadURL env r w)) = Some StatusOK /\
  forall later env2 r2 d2 o2,
    download_query_error env2 = false ->
    order_query_error env2 = false ->
    count_rows_error env2 = false ->
    count_scan_error env2 = false ->
    now env2 - day < stamp env ->
    (forall e, In e (events (db w)) ->
               download_event_since (order_ID order) (now env - day) e = true ->
               now env2 - day < event_CreatedAt e) ->
    find_download (download_id r2)
      (db (serve later (snd (DownloadURL env r w)))) = Some d2 ->
    find_order (download_OrderID d2)
      (db (serve later (snd (DownloadURL env r w)))) = Some o2 ->
    order_ID o2 = order_ID order ->
    status (fst (DownloadURL env2 r2 (serve later (snd (DownloadURL env r w)))))
    = Some StatusUnauthorized.
Proof.
  intros Hqd Hqo Hrows Hscan Hcommit Hd Ho Hacc Hpay Hsign Hc Hnew Hwin.
  assert (Hc0 : (count_distinct_ip (order_ID order) (now env - day)
                   (events (db w)) <= maxIPsPerDay)%N)
    by (rewrite Hc; unfold maxIPsPerDay; lia).
  destruct (DownloadURL_sent env r w download order signed
              Hqd Hqo Hrows Hscan Hd Ho Hacc Hpay Hc0 Hsign) as [Hout Hdb].
  rewrite Hcommit in Hdb.
  split; [rewrite Hout; reflexivity|].
  intros later env2 r2 d2 o2 Hqd2 Hqo2 Hrows2 Hscan2 Hwin2 Hstill Hd2 Ho2 Hsame.
  set (w2 := serve later (snd (DownloadURL env r w))) in *.
  assert (Hc2 : (50 < count_distinct_ip (order_ID o2) (now env2 - day)
                        (events (db w2)))%N).
  { destruct (serve_appends later (snd (DownloadURL env r w))) as (added & Hev).
    fold w2 in Hev. rewrite Hdb in Hev. cbn [recorded events] in Hev.
    rewrite Hsame, Hev, count_distinct_ip_counted.
    rewrite count_distinct_ip_counted in Hc.
    assert (Hlen : (List.length
                      (RemoteAddr r ::
                       counted_ips (order_ID order) (now env - day) (events (db w)))
                    <= List.length
                         (counted_ips (order_ID order) (now env2 - day)
                            ((events (db w) ++ [access_event env r order]) ++ added)))%nat).
    { apply NoDup_incl_length.
      - constructor; [exact Hnew | apply NoDup_nodup].
      - intros ip [<-|Hip]; apply counted_ips_In.
        + exists (access_event env r order). split; [|split].
          * apply in_or_app. left. apply in_or_app. right. left. reflexivity.
          * rewrite access_event_counts. apply Z.ltb_lt. exact Hwin2.
          * reflexivity.
        + apply counted_ips_In in Hip. destruct Hip as (e & Hin & Hp & Hip).
          exists e. split; [|split].
          * apply in_or_app. left. apply in_or_app. left. exact Hin.
          * pose proof (Hstill e Hin Hp) as Hlate.
            apply download_event_since_true in Hp.
            destruct Hp as (Hoe & _ & Hch).
            apply download_event_since_true. auto.
          * exact Hip. }
    cbn [List.length] in Hlen. lia. }
  exec_url. rewrite Hqd2, Hd2. exec. rewrite Hqo2, Ho2.
  destruct (hasOrderAccess r2 o2); cbn [negb]; [|reflexivity].
  destruct (String.eqb (order_PaymentState o2) PaidState); cbn [negb];
    [|reflexivity].
  exec. rewrite Hrows2, Hscan2. cbn [orb].
  apply N.ltb_lt in Hc2. unfold maxIPsPerDay. rewrite Hc2. reflexivity.
Qed.

Lemma fifty_first_address_closes_the_order_witness :
  count_distinct_ip "O1" (now env0 - day) (events (db (w_accessed 50))) = 50%N /\
  status (fst (DownloadURL env0 alice (w_accessed 50))) = Some StatusOK /\
  status (fst (DownloadURL env0 alice (snd (DownloadURL env0 alice (w_accessed 50)))))
  = Some StatusUnauthorized /\
  status (fst (DownloadURL
                 (mkEnv 1003600 1003600 false false false false false false 100 signer)
                 alice_elsewhere
                 (serve [ListDownloads env0 list_mine]
                        (snd (DownloadURL env0 alice (w_accessed 50))))))
  = Some StatusUnauthorized.
Proof.
  assert (Hnew : ~ In (RemoteAddr alice)
                     (counted_ips (order_ID O1) (now env0 - day)
                                  (events (db (w_accessed 50))))).
  { intros H. vm_compute in H.
    repeat (destruct H as [H|H]; [discriminate H|]). exact H. }
  destruct (fifty_first_address_closes_the_order env0 alice (w_accessed 50)
              D1 O1 "signed:assets/one.pdf"
              eq_refl eq_refl eq_refl eq_refl eq_refl eq_refl eq_refl
              eq_refl eq_refl eq_refl eq_refl Hnew eq_refl)
    as [Hfirst Hlater].
  assert (Hstamps : forall e, In e (events (db (w_accessed 50))) ->
                              event_CreatedAt e = 999990).
  { intros e He. cbn [w_accessed db events accesses] in He.
    apply in_map_iff in He. destruct He as (i & <- & _). reflexivity. }
  split; [reflexivity|]. split; [exact Hfirst|]. split.
  - apply (Hlater [] env0 alice (mkDownload "D1" "O1" "assets/one.pdf" 1) O1);
      try reflexivity.
    intros e He _. rewrite (Hstamps e He). reflexivity.
  - apply (Hlater [ListDownloads env0 list_mine]
                  (mkEnv 1003600 1003600 false false false false false false 100 signer)
                  alice_elsewhere
                  (mkDownload "D1" "O1" "assets/one.pdf" 1) O1);
      try reflexivity.
    intros e He _. rewrite (Hstamps e He). reflexivity.
Defined.

(** ** What a listing holds *)

Lemma joined_downloads_In scope d x :
  In x (joined_downloads scope d) <->
  In x (downloads d) /\
  exists o, In o (orders d) /\
            download_OrderID x = order_ID o /\
            order_PaymentState o = "paid" /\
            in_scope scope o = true.
Proof.
  unfold joined_downloads. rewrite in_flat_map. split.
  - intros (y & Hy & Hin). apply in_map_iff in Hin.
    destruct Hin as (o & <- & Ho). apply filter_In in Ho.
    destruct Ho as [Ho Hp]. apply andb_true_iff in Hp. destruct Hp as [Hp Hs].
    apply andb_true_iff in Hp. destruct Hp as [Hid Hpaid].
    apply String.eqb_eq in Hid, Hpaid. split; [exact Hy|]. exists o. auto.
  - intros (Hx & o & Ho & Hid & Hpaid & Hs). exists x. split; [exact Hx|].
    apply in_map_iff. exists o. split; [reflexivity|]. apply filter_In.
    split; [exact Ho|]. rewrite Hid, Hpaid, Hs, !String.eqb_refl. reflexivity.
Qed.

Lemma In_page {A} (x : A) (n m : nat) (l : list A) :
  In x (firstn n (skipn m l)) -> In x l.
Proof.
  intros H.
  assert (Hs : In x (skipn m l)).
  { rewrite <- (firstn_skipn n (skipn m l)). apply in_or_app. left. exact H. }
  rewrite <- (firstn_skipn m l). apply in_or_app. right. exact Hs.
Qed.

(** X12: when [DownloadList] sends a list, the list has at most [limit]
    entries, each entry is a stored download that points to an order with
    payment state "paid"; with an order identity in the request that order
    has the requested id, was loaded, is paid and the caller has access to
    it; without one, the order of each entry is owned by the subject of the
    caller's claims. *)
Theorem listed_downloads_are_paid_and_in_scope env r w ds :
  fst (DownloadList env r w) = Sent ds ->
  (List.length ds <= Z.to_nat (limit r))%nat /\
  (order_id r <> "" ->
   exists order,
     find_order (order_id r) (db w) = Some order /\
     hasOrderAccess r order = true /\
     order_PaymentState order = PaidState) /\
  forall x, In x ds ->
    In x (downloads (db w)) /\
    exists o,
      In o (orders (db w)) /\
      download_OrderID x = order_ID o /\
      order_PaymentState o = "paid" /\
      (order_id r <> "" -> order_ID o = order_id r) /\
      (order_id r = "" ->
       exists c, claims r = Some c /\ order_UserID o = Subject c).
Proof.
  rewrite DownloadList_run. cbv zeta.
  destruct (String.eqb (order_id r) "") eqn:Hid.
  - apply String.eqb_eq in Hid.
    destruct (claims r) as [c|] eqn:Hc; [|discriminate].
    rewrite paginated_run.
    destruct (paginate env r) as [[off lim]|] eqn:Hp; [|discriminate].
    destruct (paginate_some env r off lim Hp) as (-> & -> & _).
    cbn [fst]. destruct (find_error env); [discriminate|].
    intros [= <-]. split; [apply firstn_le_length|].
    split; [intros Hne; congruence|].
    intros x Hx. apply In_page in Hx. apply joined_downloads_In in Hx.
    destruct Hx as (Hin & o & Ho & Hoid & Hpaid & Hs).
    split; [exact Hin|]. exists o. repeat (split; [assumption|]).
    split; [intros Hne; congruence|]. intros _. exists c.
    split; [reflexivity|]. apply String.eqb_eq. exact Hs.
  - apply String.eqb_neq in Hid.
    destruct (order_query_error env); [discriminate|].
    destruct (find_order (order_id r) (db w)) as [order|] eqn:Ho; [|discriminate].
    destruct (hasOrderAccess r order) eqn:Hacc; cbn [negb]; [|discriminate].
    destruct (String.eqb (order_PaymentState order) PaidState) eqn:Hpay;
      cbn [negb]; [|discriminate].
    apply String.eqb_eq in Hpay.
    rewrite paginated_run.
    destruct (paginate env r) as [[off lim]|] eqn:Hp; [|discriminate].
    destruct (paginate_some env r off lim Hp) as (-> & -> & _).
    cbn [fst db]. destruct (find_error env); [discriminate|].
    intros [= <-]. split; [apply firstn_le_length|].
    split; [intros _; exists order; auto|].
    intros x Hx. apply In_page in Hx. apply joined_downloads_In in Hx.
    destruct Hx as (Hin & o & Hino & Hoid & Hpaid & Hs).
    split; [exact Hin|]. exists o. repeat (split; [assumption|]).
    split; [|intros He; congruence]. intros _.
    cbn [in_scope] in Hs. apply String.eqb_eq in Hs. rewrite Hs.
    unfold find_order in Ho. apply find_some in Ho.
    apply String.eqb_eq. apply Ho.
Qed.

Lemma listed_downloads_are_paid_and_in_scope_witness :
  fst (DownloadList env0 list_mine w1) = Sent [D1; D4; D5] /\
  (List.length [D1; D4; D5] <= Z.to_nat (limit list_mine))%nat /\
  ~ In D2 [D1; D4; D5].
Proof.
  assert (Hrun : fst (DownloadList env0 list_mine w1) = Sent [D1; D4; D5])
    by reflexivity.
  destruct (listed_downloads_are_paid_and_in_scope env0 list_mine w1 _ Hrun)
    as (Hlen & _ & _).
  split; [exact Hrun|]. split; [exact Hlen|].
  cbn [In]. intros [H|[H|[H|[]]]]; discriminate H.
Defined.

Lemma filter_none {A} (f : A -> bool) (l : list A) :
  (forall y, In y l -> f y = false) -> filter f l = [].
Proof.
  induction l as [|x l IH]; intros H; [reflexivity|]. cbn [filter].
  rewrite (H x (or_introl eq_refl)). apply IH.
  intros y Hy. apply H. right. exact Hy.
Qed.

Lemma filter_order_id_unique (l : list Order) (order : Order) :
  NoDup (map order_ID l) -> In order l ->
  filter (fun o => String.eqb (order_ID o) (order_ID order)) l = [order].
Proof.
  induction l as [|x l IH]; intros Hnd Hin; [destruct Hin|].
  cbn [map] in Hnd. inversion Hnd as [|? ? Hx Hnd']; subst.
  cbn [filter]. destruct Hin as [->|Hin].
  - rewrite String.eqb_refl. f_equal. apply filter_none.
    intros y Hy. apply String.eqb_neq. intros Heq. apply Hx.
    rewrite <- Heq. apply in_map. exact Hy.
  - assert (Hne : String.eqb (order_ID x) (order_ID order) = false).
    { apply String.eqb_neq. intros Heq. apply Hx. rewrite Heq.
      apply in_map. exact Hin. }
    rewrite Hne. apply IH; assumption.
Qed.

Lemma filter_andb {A} (f g : A -> bool) (l : list A) :
  filter (fun x => f x && g x) l = filter f (filter g l).
Proof.
  induction l as [|x l IH]; [reflexivity|]. cbn [filter].
  destruct (g x); cbn [filter]; rewrite ?andb_true_r, ?andb_false_r.
  - destruct (f x); rewrite IH; reflexivity.
  - exact IH.
Qed.

Lemma joined_by_order d order :
  NoDup (map order_ID (orders d)) ->
  In order (orders d) ->
  order_PaymentState order = PaidState ->
  joined_downloads (ByOrder (order_ID order)) d
  = filter (fun x => String.eqb (download_OrderID x) (order_ID order))
           (downloads d).
Proof.
  intros Hnd Hin Hpay. unfold joined_downloads.
  induction (downloads d) as [|x l IH]; [reflexivity|].
  cbn [flat_map filter in_scope]. cbn [in_scope] in IH. rewrite IH.
  rewrite (filter_andb
    (fun o => String.eqb (download_OrderID x) (order_ID o)
              && String.eqb (order_PaymentState o) "paid")
    (fun o => String.eqb (order_ID o) (order_ID order))).
  rewrite (filter_order_id_unique _ _ Hnd Hin).
  cbn [filter]. rewrite Hpay. cbn [PaidState].
  change (String.eqb PaidState "paid") with true. rewrite andb_true_r.
  destruct (String.eqb (download_OrderID x) (order_ID order)); reflexivity.
Qed.

Lemma paginate_valid env r :
  0 <= offset r -> 0 <= limit r <= page_bound env ->
  paginate env r = Some (offset r, limit r).
Proof.
  intros Ho [Hl Hb]. unfold paginate.
  apply Z.leb_le in Ho, Hl, Hb. rewrite Ho, Hl, Hb. reflexivity.
Qed.

(** X13: when no two orders share an id, a listing for an order that is
    loaded, paid and accessible to the caller, read from offset 0 with a
    limit not below the number of stored downloads that point to the order,
    sends each of those downloads exactly once and nothing else.  The
    query fixes no order of the rows, and none is stated: the list sent is
    a permutation of those downloads. *)
Theorem order_listing_is_the_downloads_of_the_order env r w order :
  order_id r <> "" ->
  order_query_error env = false ->
  find_error env = false ->
  NoDup (map order_ID (orders (db w))) ->
  find_order (order_id r) (db w) = Some order ->
  hasOrderAccess r order = true ->
  order_PaymentState order = PaidState ->
  offset r = 0 ->
  0 <= limit r <= page_bound env ->
  (List.length (filter (fun x => String.eqb (download_OrderID x) (order_id r))
                       (downloads (db w)))
   <= Z.to_nat (limit r))%nat ->
  exists ds,
    fst (DownloadList env r w) = Sent ds /\
    Permutation ds
      (filter (fun x => String.eqb (download_OrderID x) (order_id r))
              (downloads (db w))).
Proof.
  intros Hid Hqo Hfind Hnd Ho Hacc Hpay Hoff Hlim Hall.
  rewrite DownloadList_run. cbv zeta.
  apply String.eqb_neq in Hid. rewrite Hid, Hqo, Ho, Hacc, Hpay.
  cbn [negb]. rewrite String.eqb_refl. cbn [negb].
  assert (Hoff' : 0 <= offset r) by lia.
  rewrite paginated_run, (paginate_valid env r Hoff' Hlim), Hfind.
  cbn [fst db].
  unfold find_order in Ho. apply find_some in Ho. destruct Ho as [Hin Heq].
  apply String.eqb_eq in Heq.
  rewrite (joined_by_order (db w) order Hnd Hin Hpay), Heq, Hoff.
  cbn [Z.to_nat skipn]. rewrite (firstn_all2 _ Hall).
  eexists. split; [reflexivity | apply Permutation_refl].
Qed.

Lemma order_listing_is_the_downloads_of_the_order_witness :
  exists ds,
    fst (DownloadList env0 list_O1 w1) = Sent ds /\
    Permutation ds [D1; D4].
Proof.
  apply (order_listing_is_the_downloads_of_the_order env0 list_O1 w1 O1);
    try reflexivity; try discriminate.
  - cbn. repeat constructor; cbn; intuition discriminate.
  - cbn. lia.
  - cbn. lia.
Defined.

(** ** Reconciliation *)

Ltac refresh_cases :=
  unfold DownloadRefresh; cbv zeta;
  repeat match goal with
         | |- context [if ?b then _ else _] => destruct b eqn:?
         | |- context [match ?x with _ => _ end] => destruct x eqn:?
         end;
  cbn [fst snd status Code].

(** X15: [DownloadRefresh] asks the catalog for the downloads of an order
    exactly when the request names an order, that order is loaded, the
    caller has access to it and it is paid; and it saves only after the
    catalog answered. *)
Theorem refresh_reaches_the_catalog_only_when_entitled env cat r d :
  ((exists id, In (CallUpdateDownloads id) (snd (DownloadRefresh env cat r d)))
   <->
   order_id r <> "" /\
   order_query_error env = false /\
   exists order,
     find_order (order_id r) d = Some order /\
     hasOrderAccess r order = true /\
     order_PaymentState order = PaidState) /\
  ((exists id, In (CallSave id) (snd (DownloadRefresh env cat r d))) ->
   exists order ds,
     find_order (order_id r) d = Some order /\
     UpdateDownloads cat order (preloaded_downloads order d) = Some ds /\
     snd (DownloadRefresh env cat r d)
     = [LoadOrder (order_id r); CallUpdateDownloads (order_ID order);
        CallSave (order_ID order)]).
Proof.
  split; [split|].
  - refresh_cases; intros [id Hin]; cbn [app In] in Hin;
      try (exfalso; intuition discriminate); tidy;
      (split; [assumption|]); (split; [reflexivity|]);
      eexists; (split; [reflexivity|]); split; assumption.
  - intros (Hid & Hqo & order & Ho & Hacc & Hpay).
    unfold DownloadRefresh. cbv zeta.
    apply String.eqb_neq in Hid. rewrite Hid, Hqo, Ho, Hacc, Hpay.
    cbn [negb]. rewrite String.eqb_refl. cbn [negb].
    exists (order_ID order).
    destruct (UpdateDownloads cat order (preloaded_downloads order d));
      [destruct (Save cat order _ d) as [d' []]|];
      cbn [snd app In]; auto.
  - refresh_cases; intros [id Hin]; cbn [app In] in Hin;
      try (exfalso; intuition discriminate);
      do 2 eexists; (split; [reflexivity|]);
      (split; [eassumption | reflexivity]).
Qed.

(** X16: [DownloadRefresh] answers 400 exactly when the request names no
    order, and then it has called nothing.  Whenever it answers 400, 404
    or 401 the store is as before and neither the catalog nor the save was
    reached; the lookup of the order is the only call it may have made. *)
Theorem refresh_refusals_touch_nothing env cat r d :
  (status (fst (fst (DownloadRefresh env cat r d))) = Some StatusBadRequest
   <-> order_id r = "") /\
  (order_id r = "" -> snd (DownloadRefresh env cat r d) = []) /\
  (status (fst (fst (DownloadRefresh env cat r d))) = Some StatusBadRequest \/
   status (fst (fst (DownloadRefresh env cat r d))) = Some StatusNotFound \/
   status (fst (fst (DownloadRefresh env cat r d))) = Some StatusUnauthorized ->
   snd (fst (DownloadRefresh env cat r d)) = d /\
   (snd (DownloadRefresh env cat r d) = [] \/
    snd (DownloadRefresh env cat r d) = [LoadOrder (order_id r)])).
Proof.
  split; [split|split].
  - refresh_cases; intros Hst; try (vm_compute in Hst; discriminate Hst);
      tidy; assumption.
  - intros Hid. unfold DownloadRefresh. rewrite Hid. reflexivity.
  - intros Hid. unfold DownloadRefresh. rewrite Hid. reflexivity.
  - refresh_cases; intros Hst; cbn [app];
      try (split; [reflexivity | auto]; fail);
      exfalso; vm_compute in Hst; intuition discriminate.
Qed.

Lemma refresh_refusals_touch_nothing_witness :
  (status (fst (fst (DownloadRefresh env0 catalog refresh_none db0)))
     = Some StatusBadRequest /\
   snd (DownloadRefresh env0 catalog refresh_none db0) = []) /\
  (status (fst (fst (DownloadRefresh env0 catalog list_O2 db0)))
     = Some StatusUnauthorized /\
   snd (fst (DownloadRefresh env0 catalog list_O2 db0)) = db0) /\
  (status (fst (fst (DownloadRefresh env0 catalog list_O1 db0))) = Some StatusOK /\
   snd (fst (DownloadRefresh env0 catalog list_O1 db0)) <> db0).
Proof.
  destruct (refresh_refusals_touch_nothing env0 catalog refresh_none db0)
    as (Hbad & Hnone & _).
  destruct (refresh_refusals_touch_nothing env0 catalog list_O2 db0)
    as (_ & _ & Hkept).
  split; [split; [apply Hbad; reflexivity | apply Hnone; reflexivity]|].
  split.
  - split; [reflexivity|]. apply Hkept. right. right. reflexivity.
  - split; [reflexivity|]. vm_compute. discriminate.
Defined.

Lemma refresh_reaches_the_catalog_only_when_entitled_witness :
  In (CallUpdateDownloads "O1") (snd (DownloadRefresh env0 catalog list_O1 db0)) /\
  ~ (exists id, In (CallUpdateDownloads id)
                   (snd (DownloadRefresh env0 catalog list_O2 db0))).
Proof.
  destruct (refresh_reaches_the_catalog_only_when_entitled env0 catalog list_O2 db0)
    as [[Hneeds _] _].
  split.
  - vm_compute. auto.
  - intros Hcalled. destruct (Hneeds Hcalled) as (_ & _ & order & Ho & _ & Hpay).
    injection Ho as <-. discriminate Hpay.
Defined.

(** X17: for a request that names an order, [DownloadList] and
    [DownloadRefresh] refuse alike: on the same store one of them answers
    401 exactly when the other does, and one answers 404 exactly when the
    other does, whatever the pagination parameters and the catalog. *)
Theorem list_and_refresh_share_the_gate env cat r w :
  order_id r <> "" ->
  (status (fst (DownloadList env r w)) = Some StatusUnauthorized <->
   status (fst (fst (DownloadRefresh env cat r (db w)))) = Some StatusUnauthorized)
  /\
  (status (fst (DownloadList env r w)) = Some StatusNotFound <->
   status (fst (fst (DownloadRefresh env cat r (db w)))) = Some StatusNotFound).
Proof.
  intros Hid. apply String.eqb_neq in Hid.
  rewrite DownloadList_run. unfold DownloadRefresh. cbv zeta. rewrite Hid.
  destruct (order_query_error env);
    [split; split; intros H; vm_compute in H; discriminate H|].
  destruct (find_order (order_id r) (db w)) as [order|];
    [|split; split; intros H; try reflexivity; vm_compute in H; discriminate H].
  destruct (negb (hasOrderAccess r order));
    [split; split; intros H; try reflexivity; vm_compute in H; discriminate H|].
  destruct (negb (String.eqb (order_PaymentState order) PaidState));
    [split; split; intros H; try reflexivity; vm_compute in H; discriminate H|].
  rewrite paginated_run.
  destruct (paginate env r) as [[off lim]|];
    destruct (UpdateDownloads cat order (preloaded_downloads order (db w)));
    try destruct (Save cat order _ (db w)) as [d' []];
    try destruct (find_error env);
    split; split; intros H; vm_compute in H; discriminate H.
Qed.

Lemma list_and_refresh_share_the_gate_witness :
  status (fst (DownloadList env0 list_O2 w0)) = Some StatusUnauthorized /\
  status (fst (fst (DownloadRefresh env0 catalog list_O2 (db w0))))
  = Some StatusUnauthorized.
Proof.
  assert (Hlist : status (fst (DownloadList env0 list_O2 w0))
                  = Some StatusUnauthorized) by reflexivity.
  split; [exact Hlist|].
  apply (list_and_refresh_share_the_gate env0 catalog list_O2 w0);
    [discriminate | exact Hlist].
Defined.
